(** * VoiceConfirm backend: the call orchestrator and webhook reconciler

    A shallow embedding of [app/services/call_service.py] (with the parts of
    [order_service.py], [twilio_service.py], [elevenlabs_service.py] and the
    API routes that it depends on) over an explicit store.

    Modelling conventions:
    - the MongoDB collections [orders] and [call_logs] are lists in natural
      order; [find_one] returns the first matching document and [update_one]
      rewrites the first matching document, as MongoDB does;
    - an ObjectId is its lower-case 24-digit hex string;
    - [datetime.utcnow()] is the [now] parameter of the operation (one clock
      reading per request);
    - Python dictionaries coming from outside (form data of a webhook, the
      dict returned by the telephony service) are association lists of
      flat Python values;
    - an [HTTPException] that escapes a service is an [Err] carrying its
      status code and detail. *)

From Stdlib Require Import ZArith QArith Qround Lqa Sorted.
From stdpp Require Import base list strings.
From Stdlib Require Import Ascii String.

Local Open Scope string_scope.
Local Open Scope Z_scope.

(* ------------------------------------------------------------------ *)
(** ** Python values and dictionaries *)

Inductive PyVal :=
| VNone
| VBool (b : bool)
| VInt (z : Z)
| VStr (s : string).

#[global] Instance PyVal_eq_dec : EqDecision PyVal.
Proof. solve_decision. Defined.

Definition dict := list (string * PyVal).

(** [d.get(k, default)] *)
Fixpoint dict_get (d : dict) (k : string) (default : PyVal) : PyVal :=
  match d with
  | [] => default
  | (k', v) :: d' => if String.eqb k k' then v else dict_get d' k default
  end.

(** Python truthiness of a flat value. *)
Definition py_truthy (v : PyVal) : bool :=
  match v with
  | VNone => false
  | VBool b => b
  | VInt z => negb (Z.eqb z 0)
  | VStr s => negb (String.eqb s "")
  end.

(** [int(v)]: [None] when Python raises. A string is read as optional
    surrounding blanks, an optional sign and decimal digits (digit-group
    underscores and non-ASCII digits, which CPython also accepts, are not
    modelled). *)
Definition is_blank (c : ascii) : bool :=
  match c with
  | " "%char | "009"%char | "010"%char | "013"%char | "011"%char | "012"%char => true
  | _ => false
  end.

Fixpoint drop_blanks (s : string) : string :=
  match s with
  | EmptyString => EmptyString
  | String c s' => if is_blank c then drop_blanks s' else s
  end.

Definition rev_string (s : string) : string :=
  string_of_list_ascii (rev (list_ascii_of_string s)).

Definition strip (s : string) : string :=
  rev_string (drop_blanks (rev_string (drop_blanks s))).

Definition digit_val (c : ascii) : option Z :=
  let n := Z.of_nat (nat_of_ascii c) in
  if (48 <=? n) && (n <=? 57) then Some (n - 48) else None.

Fixpoint parse_digits (s : string) (acc : Z) : option Z :=
  match s with
  | EmptyString => Some acc
  | String c s' =>
      match digit_val c with
      | Some d => parse_digits s' (10 * acc + d)
      | None => None
      end
  end.

Definition parse_unsigned (s : string) : option Z :=
  match s with
  | EmptyString => None
  | _ => parse_digits s 0
  end.

Definition parse_int (s : string) : option Z :=
  match strip s with
  | String "-"%char s' => option_map Z.opp (parse_unsigned s')
  | String "+"%char s' => parse_unsigned s'
  | s' => parse_unsigned s'
  end.

Definition py_int (v : PyVal) : option Z :=
  match v with
  | VNone => None
  | VBool b => Some (if b then 1 else 0)
  | VInt z => Some z
  | VStr s => parse_int s
  end.

(** [str(z)] for a Python int. *)
Fixpoint digits_rev (fuel : nat) (n : Z) (acc : string) : string :=
  match fuel with
  | O => acc
  | S f =>
      let acc' := String (ascii_of_nat (48 + Z.to_nat (n mod 10))) acc in
      if n <? 10 then acc' else digits_rev f (n / 10) acc'
  end.

Definition str_of_Z (z : Z) : string :=
  let fuel := S (Z.to_nat (Z.log2_up (Z.abs z + 1))) in
  if z <? 0 then "-" ++ digits_rev fuel (- z) "" else digits_rev fuel z "".

(* ------------------------------------------------------------------ *)
(** ** ObjectIds *)

Definition is_hex (c : ascii) : bool :=
  let n := nat_of_ascii c in
  (Nat.leb 48 n && Nat.leb n 57) || (Nat.leb 97 n && Nat.leb n 102)
  || (Nat.leb 65 n && Nat.leb n 70).

Definition lower (c : ascii) : ascii :=
  let n := nat_of_ascii c in
  if Nat.leb 65 n && Nat.leb n 90 then ascii_of_nat (n + 32) else c.

Definition map_string (f : ascii -> ascii) (s : string) : string :=
  string_of_list_ascii (map f (list_ascii_of_string s)).

(** [ObjectId(s)] for a string [s]: [None] when bson raises [InvalidId]
    (anything but 24 hex digits); the id itself is kept as lower-case hex,
    the form [str(ObjectId(s))] prints. *)
Definition ObjectId (s : string) : option string :=
  if Nat.eqb (String.length s) 24 && forallb is_hex (list_ascii_of_string s)
  then Some (map_string lower s) else None.

Example ObjectId_bad : ObjectId "abc" = None.
Proof. reflexivity. Qed.

Example ObjectId_good :
  ObjectId "65A1B2C3D4E5F60718293A4B" = Some "65a1b2c3d4e5f60718293a4b".
Proof. reflexivity. Qed.

(* ------------------------------------------------------------------ *)
(** ** Documents ([app/models/order.py], [app/models/call.py]) *)

(** An [orders] document: [OrderInDB] flattened as MongoDB stores it.
    An item keeps the two fields the script reads ([name], [quantity]);
    [total] is the text [str(order_details.total)] of the float. *)
Record OrderDoc := mkOrder {
  o__id : string;
  o_user_id : string;
  o_order_id : string;
  customer_name : string;
  customer_phone : string;
  total : string;
  currency : string;
  items : list (string * Z);
  confirmation_status : string;
  call_attempts : Z;
  max_call_attempts : Z;
  priority : string;
  notes : option string;
  o_created_at : Z;
  o_updated_at : Z;
  last_call_date : option Z;
  confirmed_at : option Z
}.

(** A [call_logs] document: [CallInDB] ([ai_confidence], a float that no
    path of the service writes, is left out). *)
Record CallDoc := mkCall {
  c__id : string;
  call_id : string;
  c_order_id : string;
  c_user_id : string;
  status : string;
  call_type : string;
  language : string;
  voice_id : option string;
  duration : option Z;
  transcript : option string;
  audio_url : option string;
  outcome : option string;
  customer_response : option string;
  retry_count : Z;
  scheduled_at : option Z;
  metadata : option dict;
  c_created_at : Z;
  c_updated_at : Z;
  started_at : option Z;
  ended_at : option Z
}.

#[global] Instance OrderDoc_eq_dec : EqDecision OrderDoc.
Proof. solve_decision. Defined.

#[global] Instance CallDoc_eq_dec : EqDecision CallDoc.
Proof. solve_decision. Defined.

(** The database, plus the log of outbound calls handed to the telephony
    service ([twilio_service.make_voice_call] invocations: phone, call id). *)
Record World := mkWorld {
  orders : list OrderDoc;
  call_logs : list CallDoc;
  dispatches : list (string * string)
}.

Record User := mkUser { user_id : string; role : string }.

(** Outcome of a service call: a value, or an [HTTPException]. *)
Inductive Result (A : Type) :=
| Ok (a : A)
| Err (code : Z) (detail : string).
Arguments Ok {A} a.
Arguments Err {A} code detail.

(* ------------------------------------------------------------------ *)
(** ** MongoDB primitives over a collection in natural order *)

Fixpoint find_one {A} (p : A -> bool) (l : list A) : option A :=
  match l with
  | [] => None
  | x :: l' => if p x then Some x else find_one p l'
  end.

(** [update_one]: rewrite the first matching document. *)
Fixpoint update_one {A} (p : A -> bool) (f : A -> A) (l : list A) : list A :=
  match l with
  | [] => []
  | x :: l' => if p x then f x :: l' else x :: update_one p f l'
  end.

(** [delete_one]: drop the first matching document. *)
Fixpoint delete_one {A} (p : A -> bool) (l : list A) : list A :=
  match l with
  | [] => []
  | x :: l' => if p x then l' else x :: delete_one p l'
  end.

(** The [$set] fields a call update may carry. *)
Inductive CallField :=
| FStatus (s : string)
| FDuration (d : option Z)
| FTranscript (t : option string)
| FAudioUrl (u : option string)
| FOutcome (o : option string)
| FCustomerResponse (r : option string)
| FRetryCount (n : option Z)
| FUpdatedAt (t : Z)
| FStartedAt (t : Z)
| FEndedAt (t : Z)
| FMetadata (m : dict).

(** [$set] of one field. [retry_count] is a required int of the model:
    a null written there is not modelled (no path writes one). *)
Definition set_call_field (f : CallField) (c : CallDoc) : CallDoc :=
  match f with
  | FStatus s =>
      mkCall (c__id c) (call_id c) (c_order_id c) (c_user_id c) (s) (call_type c) (language c) (voice_id c) (duration c) (transcript c) (audio_url c) (outcome c) (customer_response c) (retry_count c) (scheduled_at c) (metadata c) (c_created_at c) (c_updated_at c) (started_at c) (ended_at c)
  | FDuration d =>
      mkCall (c__id c) (call_id c) (c_order_id c) (c_user_id c) (status c) (call_type c) (language c) (voice_id c) (d) (transcript c) (audio_url c) (outcome c) (customer_response c) (retry_count c) (scheduled_at c) (metadata c) (c_created_at c) (c_updated_at c) (started_at c) (ended_at c)
  | FTranscript t =>
      mkCall (c__id c) (call_id c) (c_order_id c) (c_user_id c) (status c) (call_type c) (language c) (voice_id c) (duration c) (t) (audio_url c) (outcome c) (customer_response c) (retry_count c) (scheduled_at c) (metadata c) (c_created_at c) (c_updated_at c) (started_at c) (ended_at c)
  | FAudioUrl u =>
      mkCall (c__id c) (call_id c) (c_order_id c) (c_user_id c) (status c) (call_type c) (language c) (voice_id c) (duration c) (transcript c) (u) (outcome c) (customer_response c) (retry_count c) (scheduled_at c) (metadata c) (c_created_at c) (c_updated_at c) (started_at c) (ended_at c)
  | FOutcome o =>
      mkCall (c__id c) (call_id c) (c_order_id c) (c_user_id c) (status c) (call_type c) (language c) (voice_id c) (duration c) (transcript c) (audio_url c) (o) (customer_response c) (retry_count c) (scheduled_at c) (metadata c) (c_created_at c) (c_updated_at c) (started_at c) (ended_at c)
  | FCustomerResponse r =>
      mkCall (c__id c) (call_id c) (c_order_id c) (c_user_id c) (status c) (call_type c) (language c) (voice_id c) (duration c) (transcript c) (audio_url c) (outcome c) (r) (retry_count c) (scheduled_at c) (metadata c) (c_created_at c) (c_updated_at c) (started_at c) (ended_at c)
  | FRetryCount None => c
  | FRetryCount (Some n) =>
      mkCall (c__id c) (call_id c) (c_order_id c) (c_user_id c) (status c) (call_type c) (language c) (voice_id c) (duration c) (transcript c) (audio_url c) (outcome c) (customer_response c) (n) (scheduled_at c) (metadata c) (c_created_at c) (c_updated_at c) (started_at c) (ended_at c)
  | FUpdatedAt t =>
      mkCall (c__id c) (call_id c) (c_order_id c) (c_user_id c) (status c) (call_type c) (language c) (voice_id c) (duration c) (transcript c) (audio_url c) (outcome c) (customer_response c) (retry_count c) (scheduled_at c) (metadata c) (c_created_at c) (t) (started_at c) (ended_at c)
  | FStartedAt t =>
      mkCall (c__id c) (call_id c) (c_order_id c) (c_user_id c) (status c) (call_type c) (language c) (voice_id c) (duration c) (transcript c) (audio_url c) (outcome c) (customer_response c) (retry_count c) (scheduled_at c) (metadata c) (c_created_at c) (c_updated_at c) (Some t) (ended_at c)
  | FEndedAt t =>
      mkCall (c__id c) (call_id c) (c_order_id c) (c_user_id c) (status c) (call_type c) (language c) (voice_id c) (duration c) (transcript c) (audio_url c) (outcome c) (customer_response c) (retry_count c) (scheduled_at c) (metadata c) (c_created_at c) (c_updated_at c) (started_at c) (Some t)
  | FMetadata m =>
      mkCall (c__id c) (call_id c) (c_order_id c) (c_user_id c) (status c) (call_type c) (language c) (voice_id c) (duration c) (transcript c) (audio_url c) (outcome c) (customer_response c) (retry_count c) (scheduled_at c) (Some m) (c_created_at c) (c_updated_at c) (started_at c) (ended_at c)
  end.

(** [{"$set": update_data}] with [update_data] in insertion order. *)
Definition set_call_fields (fs : list CallField) (c : CallDoc) : CallDoc :=
  fold_left (fun c f => set_call_field f c) fs c.

(** The [$set]/[$inc] fields an order update may carry. An explicit JSON
    [null] sent for [confirmation_status], [call_attempts] or [priority]
    is not modelled: those fields are then treated as unset. *)
Inductive OrderField :=
| OConfirmationStatus (s : string)
| OCallAttempts (n : Z)
| OPriority (p : string)
| ONotes (n : option string)
| OLastCallDate (t : option Z)
| OUpdatedAt (t : Z)
| OConfirmedAt (t : Z)
| OIncCallAttempts (k : Z).

Definition set_order_field (f : OrderField) (o : OrderDoc) : OrderDoc :=
  let 'mkOrder i u oi cn cp tot cur its cs ca mca pr nt cr up lcd ca_t := o in
  match f with
  | OConfirmationStatus s => mkOrder i u oi cn cp tot cur its s ca mca pr nt cr up lcd ca_t
  | OCallAttempts n => mkOrder i u oi cn cp tot cur its cs n mca pr nt cr up lcd ca_t
  | OPriority p => mkOrder i u oi cn cp tot cur its cs ca mca p nt cr up lcd ca_t
  | ONotes n => mkOrder i u oi cn cp tot cur its cs ca mca pr n cr up lcd ca_t
  | OLastCallDate t => mkOrder i u oi cn cp tot cur its cs ca mca pr nt cr up t ca_t
  | OUpdatedAt t => mkOrder i u oi cn cp tot cur its cs ca mca pr nt cr t lcd ca_t
  | OConfirmedAt t => mkOrder i u oi cn cp tot cur its cs ca mca pr nt cr up lcd (Some t)
  | OIncCallAttempts k => mkOrder i u oi cn cp tot cur its cs (ca + k) mca pr nt cr up lcd ca_t
  end.

Definition set_order_fields (fs : list OrderField) (o : OrderDoc) : OrderDoc :=
  fold_left (fun o f => set_order_field f o) fs o.

Definition with_orders (w : World) (os : list OrderDoc) : World :=
  mkWorld os (call_logs w) (dispatches w).

Definition with_call_logs (w : World) (cs : list CallDoc) : World :=
  mkWorld (orders w) cs (dispatches w).

(* ------------------------------------------------------------------ *)
(** ** [CallUpdate] (pydantic model of [app/models/call.py]) *)

(** Keyword arguments passed to a pydantic constructor. *)
Inductive Kw :=
| KStr (s : string)
| KInt (z : Z)
| KTime (t : Z)
| KDict (d : dict).

(** A [CallUpdate]; [None] is a field left unset. *)
Record CallUpdate := mkCallUpdate {
  cu_status : option string;
  cu_duration : option Z;
  cu_transcript : option string;
  cu_audio_url : option string;
  cu_outcome : option string;
  cu_customer_response : option string;
  cu_retry_count : option Z
}.

Fixpoint kw_lookup (kws : list (string * Kw)) (k : string) : option Kw :=
  match kws with
  | [] => None
  | (k', v) :: kws' => if String.eqb k k' then Some v else kw_lookup kws' k
  end.

Definition kw_str (v : option Kw) : option string :=
  match v with Some (KStr s) => Some s | _ => None end.

Definition kw_int (v : option Kw) : option Z :=
  match v with Some (KInt z) => Some z | _ => None end.

(** [CallUpdate] applied to the keywords [kws]: pydantic keeps the declared fields and, with the
    default [extra="ignore"] configuration, silently drops every other
    keyword ([started_at], [metadata], ... are not fields of [CallUpdate]). *)
Definition CallUpdate_of_kwargs (kws : list (string * Kw)) : CallUpdate :=
  mkCallUpdate
    (kw_str (kw_lookup kws "status"))
    (kw_int (kw_lookup kws "duration"))
    (kw_str (kw_lookup kws "transcript"))
    (kw_str (kw_lookup kws "audio_url"))
    (kw_str (kw_lookup kws "outcome"))
    (kw_str (kw_lookup kws "customer_response"))
    (kw_int (kw_lookup kws "retry_count")).

Definition opt_field {A} (f : A -> CallField) (v : option A) : list CallField :=
  match v with Some a => [f a] | None => [] end.

(** [call_update.dict(exclude_unset=True)], in field declaration order. *)
Definition CallUpdate_dict (cu : CallUpdate) : list CallField :=
  opt_field FStatus (cu_status cu)
  ++ opt_field (fun d => FDuration (Some d)) (cu_duration cu)
  ++ opt_field (fun t => FTranscript (Some t)) (cu_transcript cu)
  ++ opt_field (fun u => FAudioUrl (Some u)) (cu_audio_url cu)
  ++ opt_field (fun o => FOutcome (Some o)) (cu_outcome cu)
  ++ opt_field (fun r => FCustomerResponse (Some r)) (cu_customer_response cu)
  ++ opt_field (fun n => FRetryCount (Some n)) (cu_retry_count cu).

(* ------------------------------------------------------------------ *)
(** ** [CallService.update_call] *)

Definition status_is_completed (cu : CallUpdate) : bool :=
  match cu_status cu with
  | Some s => String.eqb s "completed"
  | None => false
  end.

(** [update_data] as [update_call] builds it. *)
Definition update_call_data (now : Z) (cu : CallUpdate) : list CallField :=
  CallUpdate_dict cu ++ [FUpdatedAt now]
  ++ (if status_is_completed cu then [FEndedAt now] else []).

(** Returns [None] when [ObjectId(call_id)] raises, when no document
    matches, or when the [$set] changes nothing ([modified_count == 0]). *)
Definition update_call (now : Z) (cid : string) (cu : CallUpdate) (w : World)
    : option CallDoc * World :=
  match ObjectId cid with
  | None => (None, w)
  | Some oid =>
      let p := fun c => String.eqb (c__id c) oid in
      let upd := set_call_fields (update_call_data now cu) in
      match find_one p (call_logs w) with
      | None => (None, w)
      | Some c =>
          if bool_decide (upd c = c) then (None, w)
          else (Some (upd c), with_call_logs w (update_one p upd (call_logs w)))
      end
  end.

(* ------------------------------------------------------------------ *)
(** ** [ElevenLabsService] (script text and audio) *)

Definition nl : string := String (ascii_of_nat 10) EmptyString.

Fixpoint join (sep : string) (l : list string) : string :=
  match l with
  | [] => ""
  | [x] => x
  | x :: l' => x ++ sep ++ join sep l'
  end.

(** The [items_text] of [generate_confirmation_script]: items as stored,
    the first three, then a count of the rest. *)
Definition items_text (its : list (string * Z)) : string :=
  match its with
  | [] => ""
  | _ =>
      let items_list := map (fun '(name, q) => str_of_Z q ++ " " ++ name) (firstn 3 its) in
      let txt := "including " ++ join ", " items_list in
      if Nat.ltb 3 (List.length its)
      then txt ++ " and " ++ str_of_Z (Z.of_nat (List.length its) - 3) ++ " more items"
      else txt
  end.

Definition generate_confirmation_script (customer_name order_id order_total currency : string)
    (its : list (string * Z)) (language : string) : string :=
  "Hello " ++ customer_name ++ ", this is a call from VoiceConfirm regarding your recent order #"
  ++ order_id ++ ". " ++ nl ++ nl
  ++ "I'm calling to confirm your order totaling " ++ order_total ++ " " ++ currency ++ " "
  ++ items_text its ++ ". " ++ nl ++ nl
  ++ "Could you please confirm that you placed this order and that all the details are correct? "
  ++ nl ++ nl
  ++ "If you confirm this order, please say 'yes' or 'confirm'. If there are any issues or you need to cancel, please say 'no' or 'cancel'."
  ++ nl ++ nl ++ "Thank you for your time.".

Definition language_greeting (language : string) : string :=
  match language with
  | "en" => "Hello" | "es" => "Hola" | "fr" => "Bonjour" | "de" => "Hallo"
  | "it" => "Ciao" | "pt" => "Olá" | "ru" => "Привет" | "zh" => "你好"
  | "ja" => "こんにちは" | "ko" => "안녕하세요" | "ar" => "مرحبا"
  | "hi" => "नमस्ते" | "ur" => "السلام علیکم"
  | _ => "Hello"
  end%string.

Definition localize_script (script language : string) : string :=
  if String.prefix "Hello" script
  then language_greeting language ++ substring 5 (String.length script - 5) script
  else script.

(** The ElevenLabs HTTP endpoint is external: [el_http text voice] is
    [response.content], or [None] when the request raises. *)
Record VoiceProvider := mkVoiceProvider {
  el_api_key : bool;
  el_http : string -> string -> option string
}.

Definition text_to_speech (vp : VoiceProvider) (text voice : string) : option string :=
  if el_api_key vp then el_http vp text voice else None.

Definition create_conversation_audio (vp : VoiceProvider) (script voice language : string)
    : option string :=
  text_to_speech vp (localize_script script language) voice.

(* ------------------------------------------------------------------ *)
(** ** [TwilioService.make_voice_call] (the simulated call of the source) *)

Record Telephony := mkTelephony {
  tw_configured : bool;
  whatsapp_number : option string
}.

Definition make_voice_call (tw : Telephony) (phone_number : string) (audio : string)
    (cid : string) : dict :=
  if tw_configured tw then
    [("success", VBool true);
     ("call_sid", VStr ("CA" ++ substring 0 32 cid));
     ("status", VStr "initiated");
     ("to", VStr phone_number);
     ("from", VStr (match whatsapp_number tw with
                    | Some n => if String.eqb n "" then "+1234567890" else n
                    | None => "+1234567890" end))]
  else [("success", VBool false); ("error", VStr "Twilio not configured")].

(* ------------------------------------------------------------------ *)
(** ** [CallService.initiate_order_confirmation_call] *)

(** What a request sees of the outside world: the clock, the fresh
    identifiers ([uuid.uuid4()] and the ObjectId [insert_one] assigns)
    and the two external providers. *)
Record Env := mkEnv {
  now : Z;
  new_uuid : string;
  new_call_oid : string;
  voice_provider : VoiceProvider;
  telephony : Telephony
}.

Definition DEFAULT_VOICE : string := "21m00Tcm4TlvDq8ikWAM".

(** [CallService.create_call]: the [CallCreate] of the orchestrator with a
    fresh [call_id], inserted at the end of [call_logs]. *)
Definition create_call (env : Env) (order_oid uid language voice : string)
    (w : World) : CallDoc * World :=
  let c := mkCall (new_call_oid env) (new_uuid env) order_oid uid "initiated"
             "confirmation" language (Some voice) None None None None None 0
             (Some (now env)) None (now env) (now env) None None in
  (c, with_call_logs w (call_logs w ++ [c])).

Definition err_initiate_failed {A} : Result A := Err 500 "Failed to initiate call".
Definition err_order_not_found {A} : Result A := Err 404 "Order not found".
Definition err_already_confirmed {A} : Result A := Err 400 "Order already confirmed".
Definition err_max_attempts {A} : Result A := Err 400 "Maximum call attempts reached".
Definition err_audio_failed {A} : Result A := Err 500 "Failed to generate audio".

(** [if not audio_data]: [None] and [b""] are both falsy. *)
Definition audio_ok (a : option string) : option string :=
  match a with
  | Some s => if String.eqb s "" then None else Some s
  | None => None
  end.

(** The eligibility gate of the service, in the order of the source. *)
Definition eligibility (order_id : string) (user : User) (w : World) : Result OrderDoc :=
  match ObjectId order_id with
  | None => err_initiate_failed
  | Some oid =>
      match find_one (fun o => String.eqb (o__id o) oid && String.eqb (o_user_id o) (user_id user))
              (orders w) with
      | None => err_order_not_found
      | Some o =>
          if String.eqb (confirmation_status o) "confirmed" then err_already_confirmed
          else if max_call_attempts o <=? call_attempts o then err_max_attempts
          else Ok o
      end
  end.

(** [if not voice_id: voice_id = DEFAULT_VOICE]. *)
Definition pick_voice (voice_id : option string) : string :=
  match voice_id with
  | Some v => if String.eqb v "" then DEFAULT_VOICE else v
  | None => DEFAULT_VOICE
  end.

Definition order_script (o : OrderDoc) (language : string) : string :=
  generate_confirmation_script (customer_name o) (o_order_id o) (total o) (currency o)
    (items o) language.

(** The whole operation. The [Ok] value is [updated_call], which is
    [None] when [update_call] returns [None]. *)
Definition initiate_order_confirmation_call (env : Env) (order_id : string) (user : User)
    (language : string) (voice_id : option string) (w : World)
    : Result (option CallDoc) * World :=
  match eligibility order_id user w with
  | Err code detail => (Err code detail, w)
  | Ok o =>
      let voice := pick_voice voice_id in
      let '(call_record, w1) := create_call env (o__id o) (user_id user) language voice w in
      let script := order_script o language in
      match audio_ok (create_conversation_audio (voice_provider env) script voice language) with
      | None =>
          let '(_, w2) :=
            update_call (now env) (c__id call_record)
              (CallUpdate_of_kwargs [("status", KStr "failed");
                                     ("outcome", KStr "audio_generation_failed")]) w1 in
          (err_audio_failed, w2)
      | Some audio_data =>
          let call_result :=
            make_voice_call (telephony env) (customer_phone o) audio_data (call_id call_record) in
          let w2 := mkWorld (orders w1) (call_logs w1)
                      (dispatches w1 ++ [(customer_phone o, call_id call_record)]) in
          let call_update :=
            CallUpdate_of_kwargs
              [("status", KStr (if py_truthy (dict_get call_result "success" VNone)
                                then "in_progress" else "failed"));
               ("started_at", KTime (now env));
               ("transcript", KStr script);
               ("metadata", KDict call_result)] in
          let '(updated_call, w3) := update_call (now env) (c__id call_record) call_update w2 in
          let w4 := with_orders w3
                      (update_one (fun o' => String.eqb (o__id o') (o__id o))
                         (set_order_fields [OIncCallAttempts 1; OLastCallDate (Some (now env))])
                         (orders w3)) in
          (Ok updated_call, w4)
      end
  end.

(* ------------------------------------------------------------------ *)
(** ** [CallService.process_call_webhook] and the Twilio route *)

(** [dict.get(k, default)] on a dict of strings. *)
Fixpoint str_get (m : list (string * string)) (k default : string) : string :=
  match m with
  | [] => default
  | (k', v) :: m' => if String.eqb k k' then v else str_get m' k default
  end.

Definition status_mapping_table : list (string * string) :=
  [("completed", "completed"); ("busy", "failed"); ("no-answer", "failed");
   ("failed", "failed"); ("canceled", "cancelled")].

(** [status_mapping.get(status, "failed")]; a non-string key is in no
    entry of the table. *)
Definition status_mapping (v : PyVal) : string :=
  match v with
  | VStr s => str_get status_mapping_table s "failed"
  | _ => "failed"
  end.

(** The outcome, or [None] when [int(duration)] raises. The [and] of the
    source evaluates [int(duration)] only when the status is completed. *)
Definition webhook_outcome (mapped : string) (dur : PyVal) : option string :=
  if String.eqb mapped "completed" then
    match py_int dur with
    | Some d => Some (if 10 <? d then "completed" else "no_answer")
    | None => None
    end
  else Some (if String.eqb mapped "failed" then "failed" else "no_answer").

Definition webhook_update_data (now : Z) (mapped : string) (d : Z) (outcome : string)
    (webhook_data : dict) : list CallField :=
  [FStatus mapped; FDuration (Some d); FOutcome (Some outcome); FUpdatedAt now;
   FMetadata webhook_data]
  ++ (if String.eqb mapped "completed" then [FEndedAt now] else []).

Definition confirm_order_fields (now : Z) : list OrderField :=
  [OConfirmationStatus "confirmed"; OConfirmedAt now].

(** Returns whether the event was applied; every exception of the body
    ends in [return False] before any write. *)
Definition process_call_webhook (now : Z) (cid : string) (webhook_data : dict) (w : World)
    : bool * World :=
  let p := fun c => String.eqb (call_id c) cid in
  match find_one p (call_logs w) with
  | None => (false, w)
  | Some call =>
      let st := dict_get webhook_data "CallStatus" (VStr "unknown") in
      let dur := dict_get webhook_data "CallDuration" (VInt 0) in
      let mapped := status_mapping st in
      match webhook_outcome mapped dur with
      | None => (false, w)
      | Some outcome =>
          match py_int dur with
          | None => (false, w)
          | Some d =>
              let w1 := with_call_logs w
                          (update_one p (set_call_fields
                                           (webhook_update_data now mapped d outcome webhook_data))
                             (call_logs w)) in
              let w2 := if String.eqb outcome "completed"
                        then with_orders w1
                               (update_one (fun o => String.eqb (o__id o) (c_order_id call))
                                  (set_order_fields (confirm_order_fields now)) (orders w1))
                        else w1 in
              (true, w2)
          end
      end
  end.

Inductive HttpResponse :=
| Http200 (body : dict)
| HttpError (code : Z) (detail : string).

(** [POST /calls/webhook/twilio] with the form data as a dict. *)
Definition twilio_webhook (now : Z) (form_data : dict) (w : World) : HttpResponse * World :=
  match dict_get form_data "CallSid" VNone with
  | VStr call_sid =>
      if String.eqb call_sid "" then (HttpError 400 "Missing CallSid in webhook data", w)
      else
        let '(success, w') := process_call_webhook now call_sid form_data w in
        if success then (Http200 [("status", VStr "success")], w')
        else (HttpError 400 "Failed to process webhook", w')
  | _ => (HttpError 400 "Missing CallSid in webhook data", w)
  end.

(* ------------------------------------------------------------------ *)
(** ** [OrderService] (the operations that write [orders]) *)

(** An [OrderCreate] body (its [user_id] is overwritten by the route). *)
Record OrderCreate := mkOrderCreate {
  oc_order_id : string;
  oc_customer_name : string;
  oc_customer_phone : string;
  oc_total : string;
  oc_currency : string;
  oc_items : list (string * Z);
  oc_confirmation_status : string;
  oc_call_attempts : Z;
  oc_max_call_attempts : Z;
  oc_priority : string;
  oc_notes : option string
}.

(** [OrderService.create_order] for the route's [current_user]; [oid] is
    the ObjectId [insert_one] assigns. *)
Definition create_order (now : Z) (oid : string) (user : User) (oc : OrderCreate) (w : World)
    : Result OrderDoc * World :=
  match find_one (fun o => String.eqb (o_order_id o) (oc_order_id oc)
                           && String.eqb (o_user_id o) (user_id user)) (orders w) with
  | Some _ => (Err 400 ("Order with ID " ++ oc_order_id oc ++ " already exists"), w)
  | None =>
      let o := mkOrder oid (user_id user) (oc_order_id oc) (oc_customer_name oc)
                 (oc_customer_phone oc) (oc_total oc) (oc_currency oc) (oc_items oc)
                 (oc_confirmation_status oc) (oc_call_attempts oc) (oc_max_call_attempts oc)
                 (oc_priority oc) (oc_notes oc) now now None None in
      (Ok o, with_orders w (orders w ++ [o]))
  end.

(** [OrderService.bulk_import_orders]: one [create_order] per body, a
    failure counted and skipped; [fresh i] is the ObjectId of the i-th
    insert. Returns (successful, failed). *)
Fixpoint bulk_import_orders_from (now : Z) (fresh : nat -> string) (i : nat) (user : User)
    (ocs : list OrderCreate) (w : World) : Z * Z * World :=
  match ocs with
  | [] => (0, 0, w)
  | oc :: ocs' =>
      match create_order now (fresh i) user oc w with
      | (Ok _, w1) =>
          let '(s, f, w2) := bulk_import_orders_from now fresh (S i) user ocs' w1 in
          (s + 1, f, w2)
      | (Err _ _, w1) =>
          let '(s, f, w2) := bulk_import_orders_from now fresh (S i) user ocs' w1 in
          (s, f + 1, w2)
      end
  end.

Definition bulk_import_orders (now : Z) (fresh : nat -> string) (user : User)
    (ocs : list OrderCreate) (w : World) : Z * Z * World :=
  bulk_import_orders_from now fresh O user ocs w.

(** An [OrderUpdate] body; [None] is a field left unset. *)
Record OrderUpdate := mkOrderUpdate {
  ou_confirmation_status : option string;
  ou_call_attempts : option Z;
  ou_priority : option string;
  ou_notes : option (option string);
  ou_last_call_date : option (option Z)
}.

Definition OrderUpdate_dict (ou : OrderUpdate) : list OrderField :=
  match ou_confirmation_status ou with Some s => [OConfirmationStatus s] | None => [] end
  ++ match ou_call_attempts ou with Some n => [OCallAttempts n] | None => [] end
  ++ match ou_priority ou with Some p => [OPriority p] | None => [] end
  ++ match ou_notes ou with Some n => [ONotes n] | None => [] end
  ++ match ou_last_call_date ou with Some t => [OLastCallDate t] | None => [] end.

Definition order_query (oid : string) (user : User) (o : OrderDoc) : bool :=
  String.eqb (o__id o) oid
  && (if String.eqb (role user) "admin" then true else String.eqb (o_user_id o) (user_id user)).

(** [OrderService.update_order]. *)
Definition update_order (now : Z) (order_id : string) (ou : OrderUpdate) (user : User)
    (w : World) : option OrderDoc * World :=
  match ObjectId order_id with
  | None => (None, w)
  | Some oid =>
      let q := order_query oid user in
      match find_one q (orders w) with
      | None => (None, w)
      | Some _ =>
          let update_data :=
            (OrderUpdate_dict ou ++ [OUpdatedAt now]
             ++ (match ou_confirmation_status ou with
                 | Some s => if String.eqb s "confirmed" then [OConfirmedAt now] else []
                 | None => [] end))%list in
          let os := update_one q (set_order_fields update_data) (orders w) in
          (find_one q os, with_orders w os)
      end
  end.

(** [OrderService.delete_order]. *)
Definition delete_order (order_id : string) (user : User) (w : World) : bool * World :=
  match ObjectId order_id with
  | None => (false, w)
  | Some oid =>
      let q := order_query oid user in
      match find_one q (orders w) with
      | None => (false, w)
      | Some _ => (true, with_orders w (delete_one q (orders w)))
      end
  end.

(* ------------------------------------------------------------------ *)
(** ** [CallService.get_call_stats] *)

(** Python's [round(x, 2)]: the nearest multiple of 1/100, ties to even.
    The source rounds a float; the embedding rounds the exact quotient. *)
Definition round_half_even (q : Q) : Z :=
  let f := Qfloor q in
  match Qcompare (q - inject_Z f)%Q (1 # 2) with
  | Lt => f
  | Gt => f + 1
  | Eq => if Z.even f then f else f + 1
  end.

Definition round2 (q : Q) : Q := (inject_Z (round_half_even (q * 100)) / 100)%Q.

Record CallStats := mkCallStats {
  total_calls : Z;
  successful_calls : Z;
  failed_calls : Z;
  average_duration : Q;
  success_rate : Q;
  total_duration : Z;
  calls_by_outcome : list (string * Z);
  calls_by_language : list (string * Z)
}.

Definition zero_stats : CallStats := mkCallStats 0 0 0 0%Q 0%Q 0 [] [].

(** [counts[k] = counts.get(k, 0) + 1] on an insertion-ordered dict. *)
Fixpoint bump (k : string) (m : list (string * Z)) : list (string * Z) :=
  match m with
  | [] => [(k, 1)]
  | (k', n) :: m' => if String.eqb k k' then (k', n + 1) :: m' else (k', n) :: bump k m'
  end.

Definition count_truthy (vs : list (option string)) : list (string * Z) :=
  fold_left (fun m v => match v with
                        | Some s => if String.eqb s "" then m else bump s m
                        | None => m
                        end) vs [].

Definition count_status (s : string) (cs : list CallDoc) : Z :=
  Z.of_nat (List.length (List.filter (fun c => String.eqb (status c) s) cs)).

(** [{"$sum": "$duration"}]: null and missing durations are skipped. *)
Definition sum_durations (cs : list CallDoc) : Z :=
  fold_right (fun c acc => match duration c with Some d => d + acc | None => acc end) 0 cs.

Definition visible_calls (user : User) (cs : list CallDoc) : list CallDoc :=
  if String.eqb (role user) "admin" then cs
  else List.filter (fun c => String.eqb (c_user_id c) (user_id user)) cs.

(** The statistics and the (unchanged) world: the operation only reads. *)
Definition get_call_stats (user : User) (w : World) : CallStats * World :=
  match visible_calls user (call_logs w) with
  | [] => (zero_stats, w)
  | cs =>
      let total_calls := Z.of_nat (List.length cs) in
      let successful := count_status "completed" cs in
      let total_duration := sum_durations cs in
      let success_rate :=
        if 0 <? total_calls then (inject_Z successful / inject_Z total_calls * 100)%Q else 0%Q in
      let average_duration :=
        if 0 <? total_calls then (inject_Z total_duration / inject_Z total_calls)%Q else 0%Q in
      (mkCallStats total_calls successful (count_status "failed" cs)
         (round2 average_duration) (round2 success_rate) total_duration
         (count_truthy (map outcome cs))
         (count_truthy (map (fun c => Some (language c)) cs)), w)
  end.

(* ------------------------------------------------------------------ *)
(** ** The public operations that can write the database *)

(** One request to the HTTP API, as far as it writes [orders] or
    [call_logs]: initiate a call, the Twilio webhook, order creation, bulk
    import, order update, order deletion, and (read-only) call statistics.
    The other endpoints (users, integrations, reads of orders and calls)
    do not write either collection. *)
Inductive Op :=
| OpInitiate (env : Env) (order_id : string) (user : User) (lang : string)
    (voice_id : option string)
| OpWebhook (now : Z) (form_data : dict)
| OpCreateOrder (now : Z) (oid : string) (user : User) (oc : OrderCreate)
| OpBulkImport (now : Z) (fresh : nat -> string) (user : User) (ocs : list OrderCreate)
| OpUpdateOrder (now : Z) (order_id : string) (ou : OrderUpdate) (user : User)
| OpDeleteOrder (order_id : string) (user : User)
| OpCallStats (user : User).

Definition step (op : Op) (w : World) : World :=
  match op with
  | OpInitiate env oid user lang v => snd (initiate_order_confirmation_call env oid user lang v w)
  | OpWebhook now form => snd (twilio_webhook now form w)
  | OpCreateOrder now oid user oc => snd (create_order now oid user oc w)
  | OpBulkImport now fresh user ocs => snd (bulk_import_orders now fresh user ocs w)
  | OpUpdateOrder now oid ou user => snd (update_order now oid ou user w)
  | OpDeleteOrder oid user => snd (delete_order oid user w)
  | OpCallStats user => snd (get_call_stats user w)
  end.

(* ------------------------------------------------------------------ *)
(** ** Sample data *)

Definition demo_user : User := mkUser "64f0c0ffee0000000000aa01" "user".

Definition demo_order : OrderDoc :=
  mkOrder "65a1b2c3d4e5f60718293a4b" (user_id demo_user) "ORD-1001" "Ann Lee" "+15550001"
    "42.5" "USD" [("mug", 2); ("tea", 1); ("pot", 1); ("cup", 4)]
    "pending" 0 3 "normal" None 1 1 None None.

Definition demo_call : CallDoc :=
  mkCall "65a1b2c3d4e5f60718293a4c" "0f8fad5b-d9cb-469f-a165-70867728950e"
    (o__id demo_order) (user_id demo_user) "in_progress" "confirmation" "en"
    (Some DEFAULT_VOICE) None (Some "Hello Ann Lee") None None None 0 (Some 5) None 5 5 None None.

Definition demo_world : World := mkWorld [demo_order] [demo_call] [].

Definition demo_env (audio : option string) (tw_ok : bool) : Env :=
  mkEnv 10 "7c9e6679-7425-40de-944b-e07fc1f90ae7" "65a1b2c3d4e5f60718293a4d"
    (mkVoiceProvider true (fun _ _ => audio)) (mkTelephony tw_ok None).

Definition demo_event (status_text duration_text : string) : dict :=
  [("CallSid", VStr (call_id demo_call)); ("CallStatus", VStr status_text);
   ("CallDuration", VStr duration_text)].




(* ------------------------------------------------------------------ *)
(** ** Reads of [OrderService] and [CallService] *)

(** [OrderService.get_order]: [None] (the route's 404) when [ObjectId]
    raises or no visible order has the id. *)
Definition get_order (order_id : string) (user : User) (w : World) : option OrderDoc :=
  match ObjectId order_id with
  | None => None
  | Some oid => find_one (order_query oid user) (orders w)
  end.



(** The [CallFilters] the route [GET /calls] builds ([date_from] and
    [date_to] are never set by it). *)
Record CallFilters := mkCallFilters {
  cf_status : option string;
  cf_outcome : option string;
  cf_language : option string;
  cf_order_id : option string
}.

(** [if filters.x: query["x"] = filters.x]: a missing or empty filter
    adds no condition; a condition is an equality on the stored value. *)
Definition filter_ok (fl : option string) (v : option string) : bool :=
  match fl with
  | Some s => if String.eqb s "" then true else bool_decide (v = Some s)
  | None => true
  end.

(** The [order_id] condition: [None] when [ObjectId(filters.order_id)]
    raises, [Some None] when there is no condition. *)
Definition order_id_filter (f : CallFilters) : option (option string) :=
  match cf_order_id f with
  | Some s =>
      if String.eqb s "" then Some None
      else match ObjectId s with Some oid => Some (Some oid) | None => None end
  | None => Some None
  end.

Definition call_matches (user : User) (f : CallFilters) (ofl : option string) (c : CallDoc) : bool :=
  (if String.eqb (role user) "admin" then true else String.eqb (c_user_id c) (user_id user))
  && filter_ok (cf_status f) (Some (status c))
  && filter_ok (cf_outcome f) (outcome c)
  && filter_ok (cf_language f) (Some (language c))
  && match ofl with Some oid => String.eqb (c_order_id c) oid | None => true end.

(** [.sort("created_at", -1)]: newest first; documents with equal
    [created_at] are kept in natural order. *)
Fixpoint insert_by_created (c : CallDoc) (l : list CallDoc) : list CallDoc :=
  match l with
  | [] => [c]
  | x :: l' => if c_created_at x <=? c_created_at c then c :: l else x :: insert_by_created c l'
  end.

Definition sort_by_created_desc (l : list CallDoc) : list CallDoc :=
  fold_right insert_by_created [] l.

(** [CallService.get_calls]: every exception ends in [return []]. *)
Definition get_calls (user : User) (f : CallFilters) (skip limit : nat) (w : World)
    : list CallDoc :=
  match order_id_filter f with
  | None => []
  | Some ofl =>
      firstn limit (skipn skip (sort_by_created_desc
                                   (List.filter (call_matches user f ofl) (call_logs w))))
  end.

Record OrderStats := mkOrderStats {
  total_orders : Z;
  pending_orders : Z;
  confirmed_orders : Z;
  failed_orders : Z;
  cancelled_orders : Z;
  confirmation_rate : Q;
  average_call_attempts : Q
}.

Definition zero_order_stats : OrderStats := mkOrderStats 0 0 0 0 0 0%Q 0%Q.

Definition count_order_status (s : string) (os : list OrderDoc) : Z :=
  Z.of_nat (List.length (List.filter (fun o => String.eqb (confirmation_status o) s) os)).

Definition visible_orders (user : User) (os : list OrderDoc) : list OrderDoc :=
  if String.eqb (role user) "admin" then os
  else List.filter (fun o => String.eqb (o_user_id o) (user_id user)) os.

Definition sum_call_attempts (os : list OrderDoc) : Z :=
  fold_right (fun o acc => call_attempts o + acc) 0 os.

(** [OrderService.get_order_stats]: it only reads. *)
Definition get_order_stats (user : User) (w : World) : OrderStats * World :=
  match visible_orders user (orders w) with
  | [] => (zero_order_stats, w)
  | os =>
      let total_orders := Z.of_nat (List.length os) in
      let confirmed := count_order_status "confirmed" os in
      let total_call_attempts := sum_call_attempts os in
      let confirmation_rate :=
        if 0 <? total_orders then (inject_Z confirmed / inject_Z total_orders * 100)%Q
        else 0%Q in
      let average_call_attempts :=
        if 0 <? total_orders then (inject_Z total_call_attempts / inject_Z total_orders)%Q
        else 0%Q in
      (mkOrderStats total_orders (count_order_status "pending" os) confirmed
         (count_order_status "failed" os) (count_order_status "cancelled" os)
         (round2 confirmation_rate) (round2 average_call_attempts), w)
  end.

(** No two orders of a user share the external [order_id]: the condition
    [create_order] checks before inserting. *)
Definition order_key (o : OrderDoc) : string * string := (o_user_id o, o_order_id o).

Definition order_keys_unique (w : World) : Prop := NoDup (map order_key (orders w)).

Definition is_initiate (op : Op) : bool :=
  match op with OpInitiate _ _ _ _ _ => true | _ => false end.

(** What identifies a call record and ties it to an order and a user. *)
Definition call_ident (c : CallDoc) : string * string * string * string :=
  (c__id c, call_id c, c_order_id c, c_user_id c).

(** The order of the [get_calls] result: [a] may come before [b] when
    [a] was created no earlier than [b]. *)
Definition created_not_before (a b : CallDoc) : Prop := c_created_at b <= c_created_at a.

(* ------------------------------------------------------------------ *)
(** ** Auxiliary predicates of the proofs *)

Definition any_field (_ : CallField) : bool := true.

(** Case on a single [$set] (and on the optional value of [FRetryCount],
    on which [set_call_field] matches). *)
Ltac case_call_field f := destruct f as [?|?|?|?|?|?|[?|]|?|?|?|?].

Definition not_ended_field (f : CallField) : bool :=
  match f with FEndedAt _ => false | _ => true end.

Definition not_status_field (f : OrderField) : bool :=
  match f with OConfirmationStatus _ => false | _ => true end.

(** The identifiers handed out to a request: [insert_one] returns a
    well-formed ObjectId that no stored call record has. *)
Definition fresh_call_oid (env : Env) (w : World) : Prop :=
  ObjectId (new_call_oid env) = Some (new_call_oid env)
  /\ forall c, In c (call_logs w) -> c__id c <> new_call_oid env.

(** A cancelled order with no call yet. *)
Definition demo_order_cancelled : OrderDoc :=
  set_order_fields [OConfirmationStatus "cancelled"] demo_order.



(* ================================================================== *)
(** * Lemmas about the collection primitives *)

Section Collections.
Context {A : Type}.
Implicit Types (p : A -> bool) (f : A -> A) (l : list A).


Lemma in_delete_one p l y : In y (delete_one p l) -> In y l.
Proof.
  induction l as [|x l IH]; simpl; [tauto|].
  destruct (p x); simpl; intuition.
Qed.

Lemma find_one_update_one p f l x :
  find_one p l = Some x -> p (f x) = true ->
  find_one p (update_one p f l) = Some (f x).
Proof.
  induction l as [|y l IH]; simpl; [discriminate|].
  destruct (p y) eqn:Hy; simpl.
  - intros [= <-] ->. reflexivity.
  - intros H1 H2. rewrite Hy. auto.
Qed.

Lemma update_one_idem p f l :
  (forall x, p x = true -> p (f x) = true) ->
  (forall x, p x = true -> f (f x) = f x) ->
  update_one p f (update_one p f l) = update_one p f l.
Proof.
  intros Hp Hf. induction l as [|y l IH]; simpl; [reflexivity|].
  destruct (p y) eqn:Hy; simpl.
  - rewrite (Hp y Hy), (Hf y Hy). reflexivity.
  - rewrite Hy, IH. reflexivity.
Qed.

Lemma Exists_update_one (P : A -> Prop) p f l :
  (forall x, P x -> P (f x)) -> Exists P l -> Exists P (update_one p f l).
Proof.
  intros HP. induction l as [|y l IH]; simpl; [inversion 1|].
  intros Hex. inversion Hex; subst; destruct (p y); auto.
Qed.

Lemma find_one_In p l x : find_one p l = Some x -> In x l /\ p x = true.
Proof.
  induction l as [|y l IH]; simpl; [discriminate|].
  destruct (p y) eqn:Hy; [intros [= <-]; auto|].
  intros H. destruct (IH H); auto.
Qed.
End Collections.

(* ================================================================== *)
(** * Lemmas about [$set] on documents *)

Lemma set_call_fields_app fs1 fs2 c :
  set_call_fields (fs1 ++ fs2) c = set_call_fields fs2 (set_call_fields fs1 c).
Proof. unfold set_call_fields. apply fold_left_app. Qed.

Lemma set_call_fields_cons f fs c :
  set_call_fields (f :: fs) c = set_call_fields fs (set_call_field f c).
Proof. reflexivity. Qed.

(** A projection that no single [$set] touches is kept by a whole update. *)
Lemma set_call_fields_keep {B} (g : CallDoc -> B) (ok : CallField -> bool) fs c :
  (forall f c, ok f = true -> g (set_call_field f c) = g c) ->
  forallb ok fs = true -> g (set_call_fields fs c) = g c.
Proof.
  intros Hg. revert c. induction fs as [|f fs IH]; intros c; cbn [forallb]; [reflexivity|].
  intros [Hf Hfs]%andb_prop. rewrite set_call_fields_cons, IH by exact Hfs. auto.
Qed.

Lemma set_call_fields_c__id fs c : c__id (set_call_fields fs c) = c__id c.
Proof.
  apply (set_call_fields_keep c__id any_field); [|induction fs; simpl; auto].
  intros f [] _; case_call_field f; reflexivity.
Qed.

Lemma set_call_fields_call_id fs c : call_id (set_call_fields fs c) = call_id c.
Proof.
  apply (set_call_fields_keep call_id any_field); [|induction fs; simpl; auto].
  intros f [] _; case_call_field f; reflexivity.
Qed.

Lemma set_call_fields_c_order_id fs c : c_order_id (set_call_fields fs c) = c_order_id c.
Proof.
  apply (set_call_fields_keep c_order_id any_field); [|induction fs; simpl; auto].
  intros f [] _; case_call_field f; reflexivity.
Qed.

Lemma set_call_fields_ended_keep fs c :
  forallb not_ended_field fs = true -> ended_at (set_call_fields fs c) = ended_at c.
Proof.
  apply set_call_fields_keep. intros f [] H; case_call_field f; try reflexivity; discriminate.
Qed.

Lemma CallUpdate_dict_not_ended cu : forallb not_ended_field (CallUpdate_dict cu) = true.
Proof.
  destruct cu as [[?|] [?|] [?|] [?|] [?|] [?|] [?|]]; reflexivity.
Qed.

Lemma set_order_fields_cons f fs o :
  set_order_fields (f :: fs) o = set_order_fields fs (set_order_field f o).
Proof. reflexivity. Qed.

Lemma set_order_fields_keep {B} (g : OrderDoc -> B) (ok : OrderField -> bool) fs o :
  (forall f o, ok f = true -> g (set_order_field f o) = g o) ->
  forallb ok fs = true -> g (set_order_fields fs o) = g o.
Proof.
  intros Hg. revert o. induction fs as [|f fs IH]; intros o; cbn [forallb]; [reflexivity|].
  intros [Hf Hfs]%andb_prop. rewrite set_order_fields_cons, IH by exact Hfs. auto.
Qed.

Lemma set_order_fields_o__id fs o : o__id (set_order_fields fs o) = o__id o.
Proof.
  apply (set_order_fields_keep o__id (fun _ => true)); [|induction fs; simpl; auto].
  intros [] []; reflexivity.
Qed.

Lemma set_order_fields_status_keep fs o :
  forallb not_status_field fs = true ->
  confirmation_status (set_order_fields fs o) = confirmation_status o.
Proof.
  apply set_order_fields_keep. intros [] [] H; try reflexivity; discriminate.
Qed.

(* ================================================================== *)
(** * The webhook reconciler *)

Lemma webhook_update_keeps_call_id now mapped d out wd c :
  call_id (set_call_fields (webhook_update_data now mapped d out wd) c) = call_id c.
Proof. apply set_call_fields_call_id. Qed.

Lemma webhook_update_idem now mapped d out wd c :
  set_call_fields (webhook_update_data now mapped d out wd)
    (set_call_fields (webhook_update_data now mapped d out wd) c)
  = set_call_fields (webhook_update_data now mapped d out wd) c.
Proof.
  destruct c; unfold webhook_update_data; destruct (String.eqb mapped "completed"); reflexivity.
Qed.

Lemma confirm_order_idem now o :
  set_order_fields (confirm_order_fields now) (set_order_fields (confirm_order_fields now) o)
  = set_order_fields (confirm_order_fields now) o.
Proof. destruct o; reflexivity. Qed.



(** C5. Reconciliation is idempotent: applying the same delivery event
    (same call identifier, same payload, same current time) a second time
    to the state it produced leaves CallRecords and Orders as the first
    application left them. *)
Theorem reconcile_idempotent (now : Z) (cid : string) (wd : dict) (w : World) :
  let w1 := snd (process_call_webhook now cid wd w) in
  snd (process_call_webhook now cid wd w1) = w1.
Proof.
  cbv zeta. unfold process_call_webhook at 2 3.
  set (p := fun c => String.eqb (call_id c) cid).
  destruct (find_one p (call_logs w)) as [call|] eqn:Hfind;
    [|cbn [snd]; unfold process_call_webhook; fold p; rewrite Hfind; reflexivity].
  set (mapped := status_mapping (dict_get wd "CallStatus" (VStr "unknown"))).
  destruct (webhook_outcome mapped (dict_get wd "CallDuration" (VInt 0))) as [out|] eqn:Hout;
    [|cbn [snd]; unfold process_call_webhook; fold p; rewrite Hfind; fold mapped;
      rewrite Hout; reflexivity].
  destruct (py_int (dict_get wd "CallDuration" (VInt 0))) as [d|] eqn:Hd;
    [|cbn [snd]; unfold process_call_webhook; fold p; rewrite Hfind; fold mapped;
      rewrite Hout, Hd; reflexivity].
  set (f := set_call_fields (webhook_update_data now mapped d out wd)).
  assert (Hp : forall c, p c = true -> p (f c) = true).
  { intros c Hc. unfold p, f in *. rewrite set_call_fields_call_id. exact Hc. }
  assert (Hf : forall c, p c = true -> f (f c) = f c).
  { intros c _. apply webhook_update_idem. }
  assert (Hfind1 : find_one p (update_one p f (call_logs w)) = Some (f call)).
  { apply find_one_update_one; [exact Hfind|]. apply Hp. exact (proj2 (find_one_In _ _ _ Hfind)). }
  assert (Hord : c_order_id (f call) = c_order_id call) by apply set_call_fields_c_order_id.
  set (q := fun o => String.eqb (o__id o) (c_order_id call)).
  set (g := set_order_fields (confirm_order_fields now)).
  assert (Hq : forall o, q o = true -> q (g o) = true).
  { intros o Ho. unfold q, g in *. rewrite set_order_fields_o__id. exact Ho. }
  assert (Hg : forall o, q o = true -> g (g o) = g o) by (intros; apply confirm_order_idem).
  destruct (String.eqb out "completed") eqn:Hc; cbn [snd];
    unfold process_call_webhook; fold p; cbn [call_logs with_orders with_call_logs];
    rewrite Hfind1; fold mapped; rewrite Hout, Hd; fold f; rewrite Hord, Hc; fold q g;
    cbn [call_logs orders with_orders with_call_logs dispatches];
    rewrite (update_one_idem p f _ Hp Hf); [rewrite (update_one_idem q g _ Hq Hg)|];
    reflexivity.
Qed.

(** The form data of the Twilio route carry the call identifier. *)
Lemma twilio_webhook_process now form w sid :
  dict_get form "CallSid" VNone = VStr sid -> sid <> "" ->
  twilio_webhook now form w =
  (let '(success, w') := process_call_webhook now sid form w in
   if success then (Http200 [("status", VStr "success")], w')
   else (HttpError 400 "Failed to process webhook", w')).
Proof.
  intros Hsid Hne. unfold twilio_webhook. rewrite Hsid.
  destruct (String.eqb_spec sid ""); [contradiction|reflexivity].
Qed.

(** C7 (counterexample). An event for a call identifier that matches no
    CallRecord is answered by the webhook endpoint with an HTTP 400 error,
    not with success. *)
Lemma webhook_unknown_call_not_success :
  let form := [("CallSid", VStr "CA0000000000000000000000000000000000");
               ("CallStatus", VStr "completed"); ("CallDuration", VStr "30")] in
  fst (twilio_webhook 100 form demo_world) = HttpError 400 "Failed to process webhook"
  /\ forall body, fst (twilio_webhook 100 form demo_world) <> Http200 body.
Proof. split; [reflexivity|intros body; discriminate]. Qed.

(** C7 (amended). For a delivery event whose call identifier matches no
    stored CallRecord, [process_call_webhook] returns false and changes
    neither CallRecords nor Orders, and the webhook endpoint answers with an
    HTTP 400 error "Failed to process webhook" (the state being unchanged). *)
Theorem webhook_unknown_call_noop (now : Z) (form : dict) (w : World) (sid : string) :
  dict_get form "CallSid" VNone = VStr sid -> sid <> "" ->
  find_one (fun c => String.eqb (call_id c) sid) (call_logs w) = None ->
  process_call_webhook now sid form w = (false, w)
  /\ twilio_webhook now form w = (HttpError 400 "Failed to process webhook", w).
Proof.
  intros Hsid Hne Hnone.
  assert (Hp : process_call_webhook now sid form w = (false, w)).
  { unfold process_call_webhook. rewrite Hnone. reflexivity. }
  split; [exact Hp|]. rewrite (twilio_webhook_process now form w sid Hsid Hne), Hp.
  reflexivity.
Qed.

Lemma webhook_unknown_call_noop_witness :
  let form := [("CallSid", VStr "CA0000000000000000000000000000000000");
               ("CallStatus", VStr "busy")] in
  (dict_get form "CallSid" VNone = VStr "CA0000000000000000000000000000000000"
   /\ "CA0000000000000000000000000000000000" <> ""
   /\ find_one (fun c => String.eqb (call_id c) "CA0000000000000000000000000000000000")
        (call_logs demo_world) = None)
  /\ process_call_webhook 7 "CA0000000000000000000000000000000000" form demo_world
     = (false, demo_world)
  /\ twilio_webhook 7 form demo_world
     = (HttpError 400 "Failed to process webhook", demo_world).
Proof.
  cbv zeta.
  assert (H1 : dict_get [("CallSid", VStr "CA0000000000000000000000000000000000");
                         ("CallStatus", VStr "busy")] "CallSid" VNone
               = VStr "CA0000000000000000000000000000000000") by reflexivity.
  assert (H2 : "CA0000000000000000000000000000000000" <> "") by discriminate.
  assert (H3 : find_one (fun c => String.eqb (call_id c) "CA0000000000000000000000000000000000")
                 (call_logs demo_world) = None) by reflexivity.
  split; [auto|]. exact (webhook_unknown_call_noop 7 _ demo_world _ H1 H2 H3).
Defined.


(* ------------------------------------------------------------------ *)
(** ** [ended_at] *)

Lemma webhook_update_status_ended now mapped d out wd c :
  status (set_call_fields (webhook_update_data now mapped d out wd) c) = mapped
  /\ ended_at (set_call_fields (webhook_update_data now mapped d out wd) c)
     = (if String.eqb mapped "completed" then Some now else ended_at c).
Proof.
  destruct c; unfold webhook_update_data; destruct (String.eqb mapped "completed"); split;
    reflexivity.
Qed.

Lemma update_call_data_ended now cu c :
  ended_at (set_call_fields (update_call_data now cu) c)
  = (if status_is_completed cu then Some now else ended_at c).
Proof.
  unfold update_call_data. rewrite !set_call_fields_app.
  destruct (status_is_completed cu).
  - destruct (set_call_fields [FUpdatedAt now] _); reflexivity.
  - rewrite set_call_fields_ended_keep by reflexivity.
    rewrite set_call_fields_ended_keep by reflexivity.
    apply set_call_fields_ended_keep, CallUpdate_dict_not_ended.
Qed.

(** C9 (counterexample). Reconciling a "busy" event moves the CallRecord to
    the terminal status failed without setting ended_at. *)
Lemma reconcile_failed_keeps_ended_at_unset :
  exists c',
    find_one (fun c => String.eqb (call_id c) (call_id demo_call))
      (call_logs (snd (process_call_webhook 20 (call_id demo_call) (demo_event "busy" "0")
                         demo_world))) = Some c'
    /\ status c' = "failed" /\ ended_at c' = None.
Proof. eexists. split; [reflexivity|split; reflexivity]. Qed.

(** C9 (amended). On both update paths ended_at is set (to the current
    time) exactly when the new status is completed; an update to any other
    status, terminal (failed, cancelled) or not, leaves ended_at as it
    was. For [update_call] the new status is the [status] of the
    [CallUpdate]; for reconciliation it is the mapped provider status. *)
Theorem ended_at_set_only_on_completed :
  (forall now cid cu w c w',
     update_call now cid cu w = (Some c, w') ->
     exists c0, In c0 (call_logs w) /\ c__id c0 = c__id c
       /\ ended_at c = (if status_is_completed cu then Some now else ended_at c0))
  /\ (forall now cid wd w call w',
     find_one (fun c => String.eqb (call_id c) cid) (call_logs w) = Some call ->
     process_call_webhook now cid wd w = (true, w') ->
     exists c', find_one (fun c => String.eqb (call_id c) cid) (call_logs w') = Some c'
       /\ ended_at c' = (if String.eqb (status c') "completed" then Some now else ended_at call)).
Proof.
  split.
  - intros now cid cu w c w' H. unfold update_call in H.
    destruct (ObjectId cid) as [oid|]; [|discriminate].
    destruct (find_one _ (call_logs w)) as [c0|] eqn:Hf; [|discriminate].
    destruct (bool_decide _); [discriminate|]. injection H as <- _.
    exists c0. destruct (find_one_In _ _ _ Hf) as [Hin _].
    split; [exact Hin|split; [symmetry; apply set_call_fields_c__id|apply update_call_data_ended]].
  - intros now cid wd w call w' Hf H. unfold process_call_webhook in H. rewrite Hf in H.
    destruct (webhook_outcome _ _) as [out|]; [|discriminate].
    destruct (py_int _) as [d|]; [|discriminate].
    set (mapped := status_mapping (dict_get wd "CallStatus" (VStr "unknown"))) in H.
    set (f := set_call_fields (webhook_update_data now mapped d out wd)) in H.
    assert (Hw' : call_logs w' = update_one (fun c => String.eqb (call_id c) cid) f (call_logs w)).
    { destruct (String.eqb out "completed"); injection H as <-; reflexivity. }
    exists (f call). rewrite Hw'. split.
    + apply find_one_update_one; [exact Hf|]. unfold f. rewrite set_call_fields_call_id.
      exact (proj2 (find_one_In _ _ _ Hf)).
    + destruct (webhook_update_status_ended now mapped d out wd call) as [Hs He].
      unfold f. rewrite Hs, He. reflexivity.
Qed.

Lemma ended_at_set_only_on_completed_witness :
  (update_call 20 (c__id demo_call) (CallUpdate_of_kwargs [("status", KStr "completed")])
     demo_world <> (None, demo_world)
   /\ find_one (fun c => String.eqb (call_id c) (call_id demo_call)) (call_logs demo_world)
      = Some demo_call)
  /\ (exists c w', update_call 20 (c__id demo_call)
                    (CallUpdate_of_kwargs [("status", KStr "completed")]) demo_world
                  = (Some c, w') /\ ended_at c = Some 20)
  /\ (exists c', find_one (fun c => String.eqb (call_id c) (call_id demo_call))
                  (call_logs (snd (process_call_webhook 20 (call_id demo_call)
                                    (demo_event "canceled" "3") demo_world))) = Some c'
                 /\ ended_at c' = None).
Proof.
  destruct ended_at_set_only_on_completed as [Hu Hr].
  assert (Hf : find_one (fun c => String.eqb (call_id c) (call_id demo_call)) (call_logs demo_world)
               = Some demo_call) by reflexivity.
  split; [split; [discriminate|exact Hf]|split].
  - destruct (update_call 20 (c__id demo_call) (CallUpdate_of_kwargs [("status", KStr "completed")])
                demo_world) as [[c|] w'] eqn:E; [|discriminate].
    exists c, w'. split; [reflexivity|].
    destruct (Hu _ _ _ _ _ _ E) as (c0 & _ & _ & He). exact He.
  - destruct (process_call_webhook 20 (call_id demo_call) (demo_event "canceled" "3") demo_world)
      as [b w'] eqn:E.
    assert (Hb : b = true) by (injection E as <- _; reflexivity). subst b.
    destruct (Hr _ _ _ _ _ _ Hf E) as (c' & Hc' & He).
    exists c'. split; [exact Hc'|]. rewrite He.
    assert (Hs : status c' = "cancelled").
    { vm_compute in E. injection E as Ew. subst w'. vm_compute in Hc'.
      injection Hc' as <-. reflexivity. }
    rewrite Hs. reflexivity.
Defined.

(* ------------------------------------------------------------------ *)
(** ** Call statistics *)



(* ================================================================== *)
(** * The call orchestrator *)

Section FreshInsert.
Context {A : Type}.
Implicit Types (p : A -> bool) (f : A -> A) (l : list A).

Lemma find_one_app_fresh p l x :
  (forall y, In y l -> p y = false) -> p x = true -> find_one p (l ++ [x])%list = Some x.
Proof.
  intros Hl Hx. induction l as [|y l IH]; simpl; [rewrite Hx; reflexivity|].
  rewrite (Hl y (or_introl eq_refl)). apply IH. intros z Hz. apply Hl. right. exact Hz.
Qed.

Lemma update_one_app_fresh p f l x :
  (forall y, In y l -> p y = false) -> p x = true -> update_one p f (l ++ [x])%list = (l ++ [f x])%list.
Proof.
  intros Hl Hx. induction l as [|y l IH]; simpl; [rewrite Hx; reflexivity|].
  rewrite (Hl y (or_introl eq_refl)), IH; [reflexivity|]. intros z Hz. apply Hl. right. exact Hz.
Qed.
End FreshInsert.

Lemma update_call_orders now cid cu w :
  orders (snd (update_call now cid cu w)) = orders w
  /\ dispatches (snd (update_call now cid cu w)) = dispatches w.
Proof.
  unfold update_call. destruct (ObjectId cid); [|auto].
  destruct (find_one _ _); [|auto]. destruct (bool_decide _); auto.
Qed.

(** [update_call] on the record just inserted with a fresh ObjectId. *)
Lemma update_call_fresh now w l c cu :
  call_logs w = (l ++ [c])%list ->
  ObjectId (c__id c) = Some (c__id c) ->
  (forall y, In y l -> c__id y <> c__id c) ->
  set_call_fields (update_call_data now cu) c <> c ->
  update_call now (c__id c) cu w
  = (Some (set_call_fields (update_call_data now cu) c),
     with_call_logs w (l ++ [set_call_fields (update_call_data now cu) c])%list).
Proof.
  intros Hw Hoid Hfresh Hchg. unfold update_call. rewrite Hoid, Hw.
  assert (Hl : forall y, In y l -> String.eqb (c__id y) (c__id c) = false).
  { intros y Hy. apply String.eqb_neq. auto. }
  rewrite (find_one_app_fresh _ _ _ Hl (String.eqb_refl _)).
  rewrite bool_decide_eq_false_2 by exact Hchg.
  rewrite (update_one_app_fresh _ _ _ _ Hl (String.eqb_refl _)). reflexivity.
Qed.

Lemma update_call_keeps_exists (P : CallDoc -> Prop) now cid cu w :
  (forall fs c, P c -> P (set_call_fields fs c)) ->
  Exists P (call_logs w) -> Exists P (call_logs (snd (update_call now cid cu w))).
Proof.
  intros HP Hex. unfold update_call. destruct (ObjectId cid); [|exact Hex].
  destruct (find_one _ _); [|exact Hex]. destruct (bool_decide _); [exact Hex|].
  simpl. apply Exists_update_one; [|exact Hex]. intros x. apply HP.
Qed.

(** A request that fails the eligibility gate changes nothing. *)
Lemma initiate_rejected_noop env order_id user lang v w code detail :
  eligibility order_id user w = Err code detail ->
  initiate_order_confirmation_call env order_id user lang v w = (Err code detail, w).
Proof. intros H. unfold initiate_order_confirmation_call. rewrite H. reflexivity. Qed.

(** For a well-formed ObjectId the gate tries the conditions in the order
    of the source, the first failing one deciding the error. *)
Lemma eligibility_first_failure order_id user w oid :
  ObjectId order_id = Some oid ->
  eligibility order_id user w =
  match find_one (fun o => String.eqb (o__id o) oid && String.eqb (o_user_id o) (user_id user))
          (orders w) with
  | None => err_order_not_found
  | Some o =>
      if String.eqb (confirmation_status o) "confirmed" then err_already_confirmed
      else if max_call_attempts o <=? call_attempts o then err_max_attempts
      else Ok o
  end.
Proof. intros H. unfold eligibility. rewrite H. reflexivity. Qed.

(** C1 (failing input). The order identifier "abc" names no order, yet the
    operation answers with the generic HTTP 500 "Failed to initiate call"
    instead of NotFound: [ObjectId("abc")] raises before the lookup and the
    catch-all handler turns it into a 500 (nothing is written). *)
Theorem initiate_malformed_id_not_404 :
  initiate_order_confirmation_call (demo_env (Some "RIFF") true) "abc" demo_user "en" None
    demo_world
  = (Err 500 "Failed to initiate call", demo_world)
  /\ find_one (fun o => String.eqb (o__id o) "abc") (orders demo_world) = None.
Proof. split; reflexivity. Qed.

Lemma create_call_spec env oid uid lang voice w c w1 :
  create_call env oid uid lang voice w = (c, w1) ->
  w1 = with_call_logs w (call_logs w ++ [c])%list
  /\ c__id c = new_call_oid env /\ call_id c = new_uuid env /\ c_order_id c = oid
  /\ status c = "initiated" /\ started_at c = None /\ metadata c = None
  /\ transcript c = None.
Proof. unfold create_call. intros [= <- <-]. repeat split. Qed.

(** C2. For an order that passes the eligibility gate, when audio synthesis
    fails the operation fails with AudioGenerationFailed (HTTP 500 "Failed
    to generate audio"), the CallRecord it created is persisted with status
    failed and outcome audio_generation_failed, no call is dispatched, and
    the orders (so the order's call_attempts and last_call_date) are left
    unchanged. *)
Theorem initiate_audio_failure (env : Env) (order_id : string) (user : User)
    (language : string) (voice_id : option string) (w : World) (o : OrderDoc) :
  fresh_call_oid env w ->
  eligibility order_id user w = Ok o ->
  audio_ok (create_conversation_audio (voice_provider env) (order_script o language)
              (pick_voice voice_id) language) = None ->
  let '(r, w') := initiate_order_confirmation_call env order_id user language voice_id w in
  r = err_audio_failed
  /\ orders w' = orders w
  /\ dispatches w' = dispatches w
  /\ exists c, In c (call_logs w') /\ c__id c = new_call_oid env /\ c_order_id c = o__id o
       /\ status c = "failed" /\ outcome c = Some "audio_generation_failed".
Proof.
  intros [Hoid Hfresh] Helig Haudio.
  unfold initiate_order_confirmation_call. rewrite Helig.
  destruct (create_call env (o__id o) (user_id user) language (pick_voice voice_id) w)
    as [cr w1] eqn:Ec.
  destruct (create_call_spec _ _ _ _ _ _ _ _ Ec) as (-> & Hid & _ & Hord & Hst & _).
  rewrite Haudio.
  set (cu := CallUpdate_of_kwargs [("status", KStr "failed");
                                   ("outcome", KStr "audio_generation_failed")]).
  assert (Hcu : cu = mkCallUpdate (Some "failed") None None None
                       (Some "audio_generation_failed") None None) by reflexivity.
  set (c' := set_call_fields (update_call_data (now env) cu) cr).
  assert (Hc' : status c' = "failed" /\ outcome c' = Some "audio_generation_failed"
                /\ c__id c' = c__id cr /\ c_order_id c' = c_order_id cr).
  { unfold c'. rewrite Hcu. destruct cr; repeat split. }
  destruct Hc' as (Hs' & Ho' & Hi' & Hor').
  rewrite <- Hid in Hoid, Hfresh.
  rewrite (update_call_fresh (now env) (with_call_logs w (call_logs w ++ [cr])%list)
             (call_logs w) cr cu eq_refl Hoid Hfresh).
  2: { intros E. fold c' in E. rewrite E, Hst in Hs'. discriminate. }
  split; [reflexivity|split; [reflexivity|split; [reflexivity|]]].
  exists c'. split; [simpl; apply in_or_app; right; left; reflexivity|].
  rewrite Hi', Hor', Hid, Hord. auto.
Qed.

Lemma initiate_audio_failure_witness :
  (fresh_call_oid (demo_env None true) demo_world
   /\ eligibility (o__id demo_order) demo_user demo_world = Ok demo_order
   /\ audio_ok (create_conversation_audio (voice_provider (demo_env None true))
                  (order_script demo_order "en") (pick_voice None) "en") = None)
  /\ fst (initiate_order_confirmation_call (demo_env None true) (o__id demo_order) demo_user
            "en" None demo_world) = err_audio_failed
  /\ orders (snd (initiate_order_confirmation_call (demo_env None true) (o__id demo_order)
                    demo_user "en" None demo_world)) = orders demo_world.
Proof.
  assert (H1 : fresh_call_oid (demo_env None true) demo_world).
  { split; [reflexivity|]. intros c [<-|[]]. apply String.eqb_neq. reflexivity. }
  assert (H2 : eligibility (o__id demo_order) demo_user demo_world = Ok demo_order)
    by reflexivity.
  assert (H3 : audio_ok (create_conversation_audio (voice_provider (demo_env None true))
                           (order_script demo_order "en") (pick_voice None) "en") = None)
    by reflexivity.
  split; [auto|].
  pose proof (initiate_audio_failure _ _ _ _ _ _ _ H1 H2 H3) as H.
  destruct (initiate_order_confirmation_call (demo_env None true) (o__id demo_order) demo_user
              "en" None demo_world) as [r w'].
  destruct H as (Hr & Ho & _). split; assumption.
Defined.

(** C3 (what the code does). For an eligible order on which synthesis
    succeeds, the call is dispatched, the order's call_attempts goes up by
    exactly 1 and last_call_date is set, whether or not the dispatch was
    accepted; the CallRecord gets status in_progress when accepted and
    failed otherwise, and the script as transcript. But started_at and
    metadata stay unset: [CallUpdate] declares neither field, so the
    [started_at=...] and [metadata=call_result] keywords are dropped. *)
Theorem initiate_dispatch_path (env : Env) (order_id : string) (user : User)
    (language : string) (voice_id : option string) (w : World) (o : OrderDoc) (audio : string) :
  fresh_call_oid env w ->
  eligibility order_id user w = Ok o ->
  find_one (fun x => String.eqb (o__id x) (o__id o)) (orders w) = Some o ->
  audio_ok (create_conversation_audio (voice_provider env) (order_script o language)
              (pick_voice voice_id) language) = Some audio ->
  let accepted := py_truthy (dict_get (make_voice_call (telephony env) (customer_phone o) audio
                                         (new_uuid env)) "success" VNone) in
  exists c o' w',
    initiate_order_confirmation_call env order_id user language voice_id w = (Ok (Some c), w')
    /\ In c (call_logs w') /\ c__id c = new_call_oid env
    /\ status c = (if accepted then "in_progress" else "failed")
    /\ transcript c = Some (order_script o language)
    /\ started_at c = None /\ metadata c = None
    /\ find_one (fun x => String.eqb (o__id x) (o__id o)) (orders w') = Some o'
    /\ call_attempts o' = call_attempts o + 1
    /\ last_call_date o' = Some (now env)
    /\ dispatches w' = (dispatches w ++ [(customer_phone o, new_uuid env)])%list.
Proof.
  intros [Hoid Hfresh] Helig Hfo Haudio. cbv zeta.
  set (accepted := py_truthy (dict_get (make_voice_call (telephony env) (customer_phone o) audio
                                          (new_uuid env)) "success" VNone)).
  unfold initiate_order_confirmation_call. rewrite Helig.
  destruct (create_call env (o__id o) (user_id user) language (pick_voice voice_id) w)
    as [cr w1] eqn:Ec.
  destruct (create_call_spec _ _ _ _ _ _ _ _ Ec) as (-> & Hid & Hcid & Hord & Hst & Hsa & Hmd & _).
  rewrite Haudio. rewrite Hcid. fold accepted.
  set (st := if accepted then "in_progress" else "failed").
  set (cu := CallUpdate_of_kwargs
               [("status", KStr st); ("started_at", KTime (now env));
                ("transcript", KStr (order_script o language));
                ("metadata", KDict (make_voice_call (telephony env) (customer_phone o) audio
                                      (new_uuid env)))]).
  assert (Hcu : cu = mkCallUpdate (Some st) None (Some (order_script o language)) None None
                       None None) by reflexivity.
  set (c' := set_call_fields (update_call_data (now env) cu) cr).
  assert (Hc' : status c' = st /\ transcript c' = Some (order_script o language)
                /\ started_at c' = started_at cr /\ metadata c' = metadata cr
                /\ c__id c' = c__id cr).
  { unfold c'. rewrite Hcu. unfold st, accepted. destruct (py_truthy _); destruct cr; repeat split. }
  destruct Hc' as (Hs' & Ht' & Hsa' & Hmd' & Hi').
  rewrite <- Hid in Hoid, Hfresh.
  set (w2 := mkWorld (orders (with_call_logs w (call_logs w ++ [cr])%list))
                     (call_logs (with_call_logs w (call_logs w ++ [cr])%list))
                     (dispatches (with_call_logs w (call_logs w ++ [cr])%list)
                      ++ [(customer_phone o, new_uuid env)])%list).
  rewrite (update_call_fresh (now env) w2 (call_logs w) cr cu eq_refl Hoid Hfresh).
  2: { intros E. fold c' in E. rewrite E, Hst in Hs'. unfold st in Hs'.
       destruct accepted; discriminate. }
  set (q := fun x => String.eqb (o__id x) (o__id o)).
  set (g := set_order_fields [OIncCallAttempts 1; OLastCallDate (Some (now env))]).
  exists c', (g o). eexists. split; [reflexivity|].
  split; [simpl; apply in_or_app; right; left; reflexivity|].
  split; [rewrite Hi'; exact Hid|].
  split; [exact Hs'|]. split; [exact Ht'|].
  split; [rewrite Hsa'; exact Hsa|]. split; [rewrite Hmd'; exact Hmd|].
  split.
  { simpl. apply find_one_update_one; [exact Hfo|]. unfold q, g.
    rewrite set_order_fields_o__id. apply String.eqb_refl. }
  split; [destruct o; reflexivity|]. split; [destruct o; reflexivity|].
  reflexivity.
Qed.

Lemma initiate_dispatch_path_witness :
  (fresh_call_oid (demo_env (Some "RIFF") true) demo_world
   /\ eligibility (o__id demo_order) demo_user demo_world = Ok demo_order
   /\ find_one (fun x => String.eqb (o__id x) (o__id demo_order)) (orders demo_world)
      = Some demo_order
   /\ audio_ok (create_conversation_audio (voice_provider (demo_env (Some "RIFF") true))
                  (order_script demo_order "en") (pick_voice None) "en") = Some "RIFF")
  /\ exists c, fst (initiate_order_confirmation_call (demo_env (Some "RIFF") true)
                      (o__id demo_order) demo_user "en" None demo_world) = Ok (Some c)
       /\ status c = "in_progress" /\ started_at c = None /\ metadata c = None.
Proof.
  assert (H1 : fresh_call_oid (demo_env (Some "RIFF") true) demo_world).
  { split; [reflexivity|]. intros c [<-|[]]. apply String.eqb_neq. reflexivity. }
  assert (H2 : eligibility (o__id demo_order) demo_user demo_world = Ok demo_order)
    by reflexivity.
  assert (H3 : find_one (fun x => String.eqb (o__id x) (o__id demo_order)) (orders demo_world)
               = Some demo_order) by reflexivity.
  assert (H4 : audio_ok (create_conversation_audio (voice_provider (demo_env (Some "RIFF") true))
                  (order_script demo_order "en") (pick_voice None) "en") = Some "RIFF")
    by reflexivity.
  split; [auto|].
  destruct (initiate_dispatch_path _ _ _ _ _ _ _ _ H1 H2 H3 H4)
    as (c & o' & w' & Hr & _ & _ & Hs & _ & Hsa & Hmd & _).
  exists c. rewrite Hr. split; [reflexivity|]. split; [exact Hs|split; assumption].
Defined.

(** C10. The gate rejects on the confirmation status only when it is
    "confirmed": an order of the requester whose confirmation_status is
    pending, failed or cancelled and whose call_attempts is below
    max_call_attempts passes the eligibility check, none of the 404/400
    rejections is returned, and a CallRecord for the order is created (so a
    cancelled order can still be phoned). *)
Theorem initiate_unconfirmed_order_called (env : Env) (order_id oid : string) (user : User)
    (language : string) (voice_id : option string) (w : World) (o : OrderDoc) :
  ObjectId order_id = Some oid ->
  find_one (fun x => String.eqb (o__id x) oid && String.eqb (o_user_id x) (user_id user))
    (orders w) = Some o ->
  In (confirmation_status o) ["pending"; "failed"; "cancelled"] ->
  call_attempts o < max_call_attempts o ->
  eligibility order_id user w = Ok o
  /\ let '(r, w') := initiate_order_confirmation_call env order_id user language voice_id w in
     r <> err_order_not_found /\ r <> err_already_confirmed /\ r <> err_max_attempts
     /\ Exists (fun c => c__id c = new_call_oid env /\ c_order_id c = o__id o) (call_logs w').
Proof.
  intros Hoid Hfind Hst Hlt.
  assert (Helig : eligibility order_id user w = Ok o).
  { rewrite (eligibility_first_failure _ _ _ _ Hoid), Hfind.
    assert (Hc : String.eqb (confirmation_status o) "confirmed" = false).
    { apply String.eqb_neq. intros E. rewrite E in Hst.
      destruct Hst as [H|[H|[H|[]]]]; discriminate. }
    rewrite Hc. assert (Hm : (max_call_attempts o <=? call_attempts o) = false) by lia.
    rewrite Hm. reflexivity. }
  split; [exact Helig|].
  set (P := fun c => c__id c = new_call_oid env /\ c_order_id c = o__id o).
  assert (HP : forall fs c, P c -> P (set_call_fields fs c)).
  { intros fs c [H1 H2]. split; [rewrite set_call_fields_c__id | rewrite set_call_fields_c_order_id];
    assumption. }
  unfold initiate_order_confirmation_call. rewrite Helig.
  destruct (create_call env (o__id o) (user_id user) language (pick_voice voice_id) w)
    as [cr w1] eqn:Ec.
  destruct (create_call_spec _ _ _ _ _ _ _ _ Ec) as (-> & Hid & _ & Hord & _).
  assert (Hex : forall w0, call_logs w0 = (call_logs w ++ [cr])%list -> Exists P (call_logs w0)).
  { intros w0 ->. apply List.Exists_exists. exists cr. split; [apply in_or_app; right; left; reflexivity|].
    split; assumption. }
  destruct (audio_ok _) as [audio|].
  - match goal with |- context [update_call ?t ?i ?u ?w2] =>
      pose proof (update_call_keeps_exists P t i u w2 HP (Hex w2 eq_refl)) as H3;
      destruct (update_call t i u w2) as [u3 w3] end.
    simpl in H3 |- *. split; [discriminate|]. split; [discriminate|].
    split; [discriminate|]. exact H3.
  - match goal with |- context [update_call ?t ?i ?u ?w2] =>
      pose proof (update_call_keeps_exists P t i u w2 HP (Hex w2 eq_refl)) as H3;
      destruct (update_call t i u w2) as [u3 w3] end.
    simpl in H3 |- *. split; [discriminate|]. split; [discriminate|].
    split; [discriminate|]. exact H3.
Qed.

Lemma initiate_unconfirmed_order_called_witness :
  ObjectId (o__id demo_order) = Some (o__id demo_order)
  /\ eligibility (o__id demo_order) demo_user (mkWorld [demo_order_cancelled] [] [])
     = Ok demo_order_cancelled.
Proof.
  assert (H1 : ObjectId (o__id demo_order) = Some (o__id demo_order)) by reflexivity.
  split; [exact H1|].
  refine (proj1 (initiate_unconfirmed_order_called (demo_env (Some "RIFF") true)
                   (o__id demo_order) (o__id demo_order) demo_user "en" None
                   (mkWorld [demo_order_cancelled] [] []) demo_order_cancelled H1 _ _ _)).
  - reflexivity.
  - simpl. right. right. left. reflexivity.
  - simpl. lia.
Defined.




Lemma get_call_stats_world user w : snd (get_call_stats user w) = w.
Proof. unfold get_call_stats. destruct (visible_calls _ _); reflexivity. Qed.






(* ================================================================== *)
(** * Further properties of the services *)

(** ** Helper lemmas *)

Lemma find_one_none {A} (p : A -> bool) l x : find_one p l = None -> In x l -> p x = false.
Proof.
  induction l as [|y l IH]; simpl; [tauto|].
  destruct (p y) eqn:Hy; [discriminate|]. intros H [<-|Hx]; auto.
Qed.

Lemma filter_update_one {A} (P p : A -> bool) f l :
  (forall x, p x = true -> P x = false) -> (forall x, P (f x) = P x) ->
  List.filter P (update_one p f l) = List.filter P l.
Proof.
  intros Hp Hf. induction l as [|y l IH]; simpl; [reflexivity|].
  destruct (p y) eqn:Hy; simpl.
  - rewrite Hf, (Hp y Hy). reflexivity.
  - rewrite IH. reflexivity.
Qed.

Lemma filter_delete_one {A} (P p : A -> bool) l :
  (forall x, p x = true -> P x = false) -> List.filter P (delete_one p l) = List.filter P l.
Proof.
  intros Hp. induction l as [|y l IH]; simpl; [reflexivity|].
  destruct (p y) eqn:Hy; simpl.
  - rewrite (Hp y Hy). reflexivity.
  - rewrite IH. reflexivity.
Qed.


Lemma set_order_fields_o_user_id fs o : o_user_id (set_order_fields fs o) = o_user_id o.
Proof.
  apply (set_order_fields_keep o_user_id (fun _ => true)); [|induction fs; simpl; auto].
  intros [] []; reflexivity.
Qed.

Lemma set_order_fields_o_order_id fs o : o_order_id (set_order_fields fs o) = o_order_id o.
Proof.
  apply (set_order_fields_keep o_order_id (fun _ => true)); [|induction fs; simpl; auto].
  intros [] []; reflexivity.
Qed.

Lemma order_query_set oid user fs o :
  order_query oid user (set_order_fields fs o) = order_query oid user o.
Proof. unfold order_query. rewrite set_order_fields_o__id, set_order_fields_o_user_id. reflexivity. Qed.

Lemma order_query_owner oid user o :
  order_query oid user o = true -> role user <> "admin" -> o_user_id o = user_id user.
Proof.
  unfold order_query. intros [_ H]%andb_prop Hr.
  destruct (String.eqb_spec (role user) "admin"); [contradiction|].
  apply String.eqb_eq. exact H.
Qed.




(** ** Reads *)





(** ** Order writes *)

(** A non-admin's [update_order] and [delete_order] never change, add or
    remove an order of another user. *)
Theorem order_writes_keep_other_users (now : Z) (order_id : string) (ou : OrderUpdate)
    (user : User) (w : World) :
  role user <> "admin" ->
  let others := fun o => negb (String.eqb (o_user_id o) (user_id user)) in
  List.filter others (orders (snd (update_order now order_id ou user w)))
  = List.filter others (orders w)
  /\ List.filter others (orders (snd (delete_order order_id user w)))
     = List.filter others (orders w).
Proof.
  intros Hr others.
  assert (Hq : forall oid x, order_query oid user x = true -> others x = false).
  { intros oid x Hx. unfold others. rewrite (order_query_owner _ _ _ Hx Hr), String.eqb_refl.
    reflexivity. }
  split.
  - unfold update_order. destruct (ObjectId order_id) as [oid|]; [|reflexivity].
    destruct (find_one _ _); [|reflexivity]. simpl.
    apply filter_update_one; [apply Hq|].
    intros x. unfold others. rewrite set_order_fields_o_user_id. reflexivity.
  - unfold delete_order. destruct (ObjectId order_id) as [oid|]; [|reflexivity].
    destruct (find_one _ _); [|reflexivity]. simpl.
    apply filter_delete_one. apply Hq.
Qed.

Lemma order_writes_keep_other_users_witness :
  let intruder := mkUser "64f0c0ffee0000000000aa02" "user" in
  let others := fun o => negb (String.eqb (o_user_id o) (user_id intruder)) in
  List.filter others (orders (snd (delete_order (o__id demo_order) intruder demo_world)))
  = List.filter others (orders demo_world)
  /\ List.filter others (orders demo_world) = [demo_order].
Proof.
  cbv zeta. split; [|reflexivity].
  refine (proj2 (order_writes_keep_other_users 0 (o__id demo_order)
                   (mkOrderUpdate None None None None None)
                   (mkUser "64f0c0ffee0000000000aa02" "user") demo_world _)).
  discriminate.
Defined.


(** [update_order] on success returns the order as stored afterwards (the
    one [get_order] then finds): same [_id], owner and external order id,
    [updated_at] the current time, the requested [confirmation_status] (or
    the old one), and [confirmed_at] set to the current time exactly when
    the requested status is "confirmed" (otherwise kept). *)
Theorem update_order_result (now : Z) (order_id : string) (ou : OrderUpdate) (user : User)
    (w w' : World) (o' : OrderDoc) :
  update_order now order_id ou user w = (Some o', w') ->
  In o' (orders w') /\ get_order order_id user w' = Some o'
  /\ exists o, get_order order_id user w = Some o
     /\ o__id o' = o__id o /\ o_user_id o' = o_user_id o /\ o_order_id o' = o_order_id o
     /\ o_updated_at o' = now
     /\ confirmation_status o' = match ou_confirmation_status ou with
                                 | Some s => s
                                 | None => confirmation_status o
                                 end
     /\ confirmed_at o' = (if bool_decide (ou_confirmation_status ou = Some "confirmed")
                           then Some now else confirmed_at o).
Proof.
  unfold update_order. destruct (ObjectId order_id) as [oid|] eqn:Ho; [|discriminate].
  destruct (find_one _ _) as [o|] eqn:Hf; [|discriminate].
  set (data := (OrderUpdate_dict ou ++ [OUpdatedAt now]
                ++ match ou_confirmation_status ou with
                   | Some s => if String.eqb s "confirmed" then [OConfirmedAt now] else []
                   | None => [] end)%list).
  assert (Hq : order_query oid user (set_order_fields data o) = true).
  { rewrite order_query_set. exact (proj2 (find_one_In _ _ _ Hf)). }
  rewrite (find_one_update_one _ _ _ _ Hf Hq). intros [= <- <-].
  split; [simpl; exact (proj1 (find_one_In _ _ _ (find_one_update_one _ _ _ _ Hf Hq)))|].
  split; [unfold get_order; rewrite Ho; exact (find_one_update_one _ _ _ _ Hf Hq)|].
  exists o. split; [unfold get_order; rewrite Ho; exact Hf|].
  split; [apply set_order_fields_o__id|]. split; [apply set_order_fields_o_user_id|].
  split; [apply set_order_fields_o_order_id|].
  unfold data. clear.
  destruct ou as [[s|] [n|] [p|] [nt|] [t|]]; destruct o; cbn;
    try (destruct (String.eqb_spec s "confirmed") as [->|Hs]; cbn;
         [|rewrite bool_decide_eq_false_2 by congruence]);
    repeat split.
Qed.

Lemma update_order_result_witness :
  exists w' o',
    update_order 10 (o__id demo_order) (mkOrderUpdate (Some "cancelled") None None None None)
      demo_user demo_world = (Some o', w')
    /\ confirmation_status o' = "cancelled" /\ confirmed_at o' = None.
Proof.
  eexists. eexists. split; [reflexivity|].
  destruct (update_order_result 10 (o__id demo_order)
              (mkOrderUpdate (Some "cancelled") None None None None) demo_user demo_world
              _ _ eq_refl) as (_ & _ & o & Hg & _ & _ & _ & _ & Hs & Hc).
  vm_compute in Hg. injection Hg as <-. rewrite Hs, Hc. split; reflexivity.
Defined.

(** An order created with a fresh ObjectId is found by [get_order] under
    that id by its creator; nothing else changes. *)
Theorem create_order_then_get (now : Z) (oid : string) (user : User) (oc : OrderCreate)
    (w w' : World) (o : OrderDoc) :
  ObjectId oid = Some oid ->
  (forall x, In x (orders w) -> o__id x <> oid) ->
  create_order now oid user oc w = (Ok o, w') ->
  get_order oid user w' = Some o /\ orders w' = (orders w ++ [o])%list
  /\ call_logs w' = call_logs w /\ dispatches w' = dispatches w.
Proof.
  intros Ho Hfresh. unfold create_order. destruct (find_one _ _); [discriminate|].
  intros [= <- <-]. simpl. split; [|auto].
  unfold get_order. rewrite Ho.
  apply find_one_app_fresh.
  - intros y Hy. unfold order_query. apply andb_false_intro1. apply String.eqb_neq. auto.
  - unfold order_query. simpl. rewrite String.eqb_refl, String.eqb_refl.
    destruct (String.eqb (role user) "admin"); reflexivity.
Qed.

Lemma create_order_then_get_witness :
  exists w' o,
    create_order 10 "65a1b2c3d4e5f60718293a50" demo_user
      (mkOrderCreate "ORD-2" "Ada" "+15550100" "12.5" "USD" [] "pending" 0 3 "normal" None)
      demo_world = (Ok o, w')
    /\ get_order "65a1b2c3d4e5f60718293a50" demo_user w' = Some o.
Proof.
  assert (Hf : forall x, In x (orders demo_world) -> o__id x <> "65a1b2c3d4e5f60718293a50").
  { intros x [<-|[]]. discriminate. }
  eexists. eexists. split; [reflexivity|].
  exact (proj1 (create_order_then_get 10 "65a1b2c3d4e5f60718293a50" demo_user
              (mkOrderCreate "ORD-2" "Ada" "+15550100" "12.5" "USD" [] "pending" 0 3 "normal" None)
              demo_world _ _ eq_refl Hf eq_refl)).
Defined.

(** ** The order-key invariant and bulk import *)

Lemma map_update_one {A B} (k : A -> B) p f l :
  (forall x, k (f x) = k x) -> map k (update_one p f l) = map k l.
Proof.
  intros Hk. induction l as [|y l IH]; simpl; [reflexivity|].
  destruct (p y); simpl; rewrite ?Hk, ?IH; reflexivity.
Qed.

Lemma NoDup_map_delete_one {A B} (k : A -> B) p l :
  NoDup (map k l) -> NoDup (map k (delete_one p l)).
Proof.
  induction l as [|y l IH]; simpl; [auto|].
  intros H. inversion H as [|? ? Hni Hnd]; subst.
  destruct (p y); [exact Hnd|]. simpl. constructor; [|auto].
  rewrite list_elem_of_In in Hni |- *. intros Hin. apply Hni.
  apply in_map_iff in Hin as (z & Hz & Hzi).
  apply in_map_iff. exists z. split; [exact Hz|]. exact (in_delete_one _ _ _ Hzi).
Qed.

Lemma NoDup_snoc {A} (l : list A) x : NoDup l -> ~ In x l -> NoDup (l ++ [x])%list.
Proof.
  intros H Hx. apply NoDup_app. split; [exact H|]. split.
  - intros y Hy Hyx. apply list_elem_of_In in Hy. apply list_elem_of_In in Hyx.
    destruct Hyx as [<-|[]]. contradiction.
  - constructor; [rewrite list_elem_of_In; simpl; tauto|constructor].
Qed.

Lemma order_key_set fs o : order_key (set_order_fields fs o) = order_key o.
Proof. unfold order_key. rewrite set_order_fields_o_user_id, set_order_fields_o_order_id. reflexivity. Qed.

(** The shape of [create_order]'s effect. *)
Lemma create_order_shape now oid user oc w r w1 :
  create_order now oid user oc w = (r, w1) ->
  (exists o, r = Ok o /\ w1 = with_orders w (orders w ++ [o])%list
             /\ order_key o = (user_id user, oc_order_id oc)
             /\ forall x, In x (orders w) -> order_key x <> order_key o)
  \/ (exists c d, r = Err c d /\ w1 = w).
Proof.
  unfold create_order. destruct (find_one _ _) as [x|] eqn:Hf.
  - intros [= <- <-]. right. eauto.
  - intros [= <- <-]. left. eexists. split; [reflexivity|]. split; [reflexivity|].
    split; [reflexivity|]. intros x Hx Hk.
    pose proof (find_one_none _ _ _ Hf Hx) as H. unfold order_key in Hk. simpl in Hk.
    injection Hk as H1 H2. cbv beta in H. rewrite H1, H2, !String.eqb_refl in H. discriminate.
Qed.

(** The orders after an [initiate_order_confirmation_call] or a webhook
    request: unchanged, or one [update_one] with a [$set] on them. *)
Lemma initiate_orders_shape env oid user lang v w :
  orders (snd (initiate_order_confirmation_call env oid user lang v w)) = orders w
  \/ exists q fs, orders (snd (initiate_order_confirmation_call env oid user lang v w))
                  = update_one q (set_order_fields fs) (orders w).
Proof.
  unfold initiate_order_confirmation_call.
  destruct (eligibility oid user w) as [o|code d]; [|left; reflexivity].
  destruct (create_call _ _ _ _ _ _) as [cr w1] eqn:Ec.
  destruct (create_call_spec _ _ _ _ _ _ _ _ Ec) as (-> & _).
  destruct (audio_ok _) as [audio|].
  - match goal with |- context [update_call ?t ?i ?u ?w2] =>
      pose proof (proj1 (update_call_orders t i u w2)) as Ho;
      destruct (update_call t i u w2) as [u3 w3] end.
    simpl in Ho |- *. right. rewrite Ho. eauto.
  - match goal with |- context [update_call ?t ?i ?u ?w2] =>
      pose proof (proj1 (update_call_orders t i u w2)) as Ho;
      destruct (update_call t i u w2) as [u3 w3] end.
    simpl in Ho |- *. left. exact Ho.
Qed.

Lemma twilio_webhook_orders_shape now form w :
  orders (snd (twilio_webhook now form w)) = orders w
  \/ exists q fs, orders (snd (twilio_webhook now form w))
                  = update_one q (set_order_fields fs) (orders w).
Proof.
  unfold twilio_webhook.
  destruct (dict_get form "CallSid" VNone) as [| | |sid]; try (left; reflexivity).
  destruct (String.eqb sid ""); [left; reflexivity|].
  destruct (process_call_webhook now sid form w) as [ok w'] eqn:E.
  assert (H : orders w' = orders w \/ exists q fs, orders w' = update_one q (set_order_fields fs) (orders w)).
  { unfold process_call_webhook in E.
    destruct (find_one _ _) as [call|]; [|injection E as _ <-; left; reflexivity].
    destruct (webhook_outcome _ _) as [out|]; [|injection E as _ <-; left; reflexivity].
    destruct (py_int _) as [d|]; [|injection E as _ <-; left; reflexivity].
    injection E as _ <-. destruct (String.eqb out "completed"); simpl; [right; eauto|left; reflexivity]. }
  destruct ok; exact H.
Qed.

Lemma bulk_import_shape now fresh i user ocs w :
  let '(s, f, w') := bulk_import_orders_from now fresh i user ocs w in
  s + f = Z.of_nat (List.length ocs)
  /\ exists added, orders w' = (orders w ++ added)%list /\ Z.of_nat (List.length added) = s
  /\ call_logs w' = call_logs w /\ dispatches w' = dispatches w
  /\ (NoDup (map order_key (orders w)) -> NoDup (map order_key (orders w'))).
Proof.
  revert i w. induction ocs as [|oc ocs IH]; intros i w; cbn [bulk_import_orders_from].
  - split; [reflexivity|]. exists []. rewrite app_nil_r. auto.
  - destruct (create_order now (fresh i) user oc w) as [r w1] eqn:Ec.
    specialize (IH (S i) w1).
    destruct (bulk_import_orders_from now fresh (S i) user ocs w1) as [[s f] w2].
    destruct IH as (Hsf & added & Ho & Hl & Hc & Hd & Hnd).
    destruct (create_order_shape _ _ _ _ _ _ _ Ec) as [(o & -> & -> & _ & Hk)|(c & d & -> & ->)].
    + split; [cbn [List.length]; lia|]. exists (o :: added). simpl in Ho, Hc, Hd.
      rewrite Ho, <- app_assoc. split; [reflexivity|]. split; [simpl; lia|].
      split; [exact Hc|]. split; [exact Hd|].
      intros H. rewrite app_assoc, <- Ho. apply Hnd. simpl. rewrite map_app. apply NoDup_snoc; [exact H|].
      intros Hin. apply in_map_iff in Hin as (x & Hx & Hxi). exact (Hk x Hxi Hx).
    + split; [cbn [List.length]; lia|]. exists added. auto.
Qed.

(** Bulk import: every body is counted once, as an import or as a
    failure; the orders are the old ones followed by exactly one new order
    per successful import; calls are untouched. *)
Theorem bulk_import_counts (now : Z) (fresh : nat -> string) (user : User)
    (ocs : list OrderCreate) (w : World) :
  let '(successful, failed, w') := bulk_import_orders now fresh user ocs w in
  successful + failed = Z.of_nat (List.length ocs)
  /\ exists added, orders w' = (orders w ++ added)%list
     /\ Z.of_nat (List.length added) = successful
     /\ call_logs w' = call_logs w.
Proof.
  unfold bulk_import_orders. pose proof (bulk_import_shape now fresh O user ocs w) as H.
  destruct (bulk_import_orders_from now fresh O user ocs w) as [[s f] w'].
  destruct H as (Hsf & added & Ho & Hl & Hc & _). split; [exact Hsf|]. eauto.
Qed.

(** No request makes two orders of one user share an external
    [order_id]: [create_order] (alone or in a bulk import) refuses a
    duplicate, and no other write changes [user_id] or [order_id] or adds
    an order. *)
Theorem step_keeps_order_keys_unique (op : Op) (w : World) :
  order_keys_unique w -> order_keys_unique (step op w).
Proof.
  unfold order_keys_unique. intros H.
  assert (Hupd : forall q fs, NoDup (map order_key (update_one q (set_order_fields fs) (orders w)))).
  { intros q fs. rewrite map_update_one; [exact H|]. apply order_key_set. }
  destruct op as [env oid user lang v|now form|now oid user oc|now fresh user ocs
                 |now oid ou user|oid user|user]; simpl.
  - destruct (initiate_orders_shape env oid user lang v w) as [->|(q & fs & ->)]; auto.
  - destruct (twilio_webhook_orders_shape now form w) as [->|(q & fs & ->)]; auto.
  - destruct (create_order now oid user oc w) as [r w1] eqn:E. simpl.
    destruct (create_order_shape _ _ _ _ _ _ _ E) as [(o & _ & -> & _ & Hk)|(c & d & _ & ->)];
      [|exact H].
    simpl. rewrite map_app. apply NoDup_snoc; [exact H|].
    intros Hin. apply in_map_iff in Hin as (x & Hx & Hxi). exact (Hk x Hxi Hx).
  - unfold bulk_import_orders. pose proof (bulk_import_shape now fresh O user ocs w) as Hb.
    destruct (bulk_import_orders_from now fresh O user ocs w) as [[s f] w'].
    destruct Hb as (_ & _ & _ & _ & _ & _ & Hnd). simpl. exact (Hnd H).
  - unfold update_order. destruct (ObjectId oid); [|exact H].
    destruct (find_one _ _); [|exact H]. simpl. apply Hupd.
  - unfold delete_order. destruct (ObjectId oid); [|exact H].
    destruct (find_one _ _); [|exact H]. simpl. apply NoDup_map_delete_one. exact H.
  - rewrite get_call_stats_world. exact H.
Qed.

Lemma step_keeps_order_keys_unique_witness :
  order_keys_unique
    (step (OpBulkImport 10 (fun i => if Nat.eqb i 0 then "65a1b2c3d4e5f60718293a50"
                                     else "65a1b2c3d4e5f60718293a51") demo_user
             [mkOrderCreate "ORD-2" "Ada" "+15550100" "12.5" "USD" [] "pending" 0 3 "normal" None;
              mkOrderCreate "ORD-2" "Ada" "+15550100" "12.5" "USD" [] "pending" 0 3 "normal" None])
          demo_world).
Proof.
  apply step_keeps_order_keys_unique. unfold order_keys_unique. simpl.
  constructor; [rewrite list_elem_of_In; simpl; tauto|constructor].
Defined.

(** ** [get_calls] *)

Lemma In_insert_by_created c x l : In c (insert_by_created x l) <-> c = x \/ In c l.
Proof.
  induction l as [|y l IH]; simpl; [intuition congruence|].
  destruct (c_created_at y <=? c_created_at x); simpl; rewrite ?IH; intuition congruence.
Qed.

Lemma In_sort_by_created_desc c l : In c (sort_by_created_desc l) <-> In c l.
Proof.
  induction l as [|y l IH]; simpl; [tauto|].
  rewrite In_insert_by_created, IH. intuition congruence.
Qed.

Lemma In_firstn_skipn {A} (c : A) n m l : In c (firstn n (skipn m l)) -> In c l.
Proof.
  intros H.
  assert (H' : In c (skipn m l)).
  { rewrite <- (firstn_skipn n (skipn m l)). apply in_or_app. left. exact H. }
  rewrite <- (firstn_skipn m l). apply in_or_app. right. exact H'.
Qed.

(** Every record [GET /calls] returns is a stored call record visible to
    the requester (their own, unless admin) that satisfies each non-empty
    filter given (status, outcome, language, order id). *)
Theorem get_calls_sound (user : User) (f : CallFilters) (skip limit : nat) (w : World)
    (c : CallDoc) :
  In c (get_calls user f skip limit w) ->
  In c (call_logs w)
  /\ (role user <> "admin" -> c_user_id c = user_id user)
  /\ (forall s, cf_status f = Some s -> s <> "" -> status c = s)
  /\ (forall s, cf_outcome f = Some s -> s <> "" -> outcome c = Some s)
  /\ (forall s, cf_language f = Some s -> s <> "" -> language c = s)
  /\ (forall s oid, cf_order_id f = Some s -> ObjectId s = Some oid -> c_order_id c = oid).
Proof.
  unfold get_calls. destruct (order_id_filter f) as [ofl|] eqn:Hof; [|simpl; tauto].
  intros H. apply In_firstn_skipn in H. rewrite In_sort_by_created_desc in H.
  apply filter_In in H as [Hin Hm]. unfold call_matches in Hm.
  apply andb_prop in Hm as [Hm Ho]. apply andb_prop in Hm as [Hm Hl].
  apply andb_prop in Hm as [Hm Houtc]. apply andb_prop in Hm as [Hv Hs].
  assert (Hf : forall fl v s, fl = Some s -> s <> "" -> filter_ok fl v = true -> v = Some s).
  { intros fl v s -> Hne. unfold filter_ok.
    rewrite (proj2 (String.eqb_neq s "") Hne). apply bool_decide_eq_true_1. }
  split; [exact Hin|]. split.
  { intros Hr. destruct (String.eqb_spec (role user) "admin"); [contradiction|].
    apply String.eqb_eq. exact Hv. }
  split; [intros s E Hne; injection (Hf _ _ _ E Hne Hs); auto|].
  split; [intros s E Hne; exact (Hf _ _ _ E Hne Houtc)|].
  split; [intros s E Hne; injection (Hf _ _ _ E Hne Hl); auto|].
  intros s oid E Hs'. unfold order_id_filter in Hof. rewrite E in Hof.
  destruct (String.eqb_spec s "").
  - subst s. discriminate.
  - rewrite Hs' in Hof. injection Hof as <-. apply String.eqb_eq. exact Ho.
Qed.

Lemma get_calls_sound_witness :
  get_calls demo_user (mkCallFilters (Some "in_progress") None None None) 0 50 demo_world
  = [demo_call]
  /\ status demo_call = "in_progress".
Proof.
  assert (H : get_calls demo_user (mkCallFilters (Some "in_progress") None None None) 0 50
                demo_world = [demo_call]) by reflexivity.
  split; [exact H|].
  assert (Hin : In demo_call (get_calls demo_user (mkCallFilters (Some "in_progress") None None None)
                                0 50 demo_world)) by (rewrite H; left; reflexivity).
  destruct (get_calls_sound _ _ _ _ _ _ Hin) as (_ & _ & Hs & _).
  apply Hs; [reflexivity|discriminate].
Defined.

(** [GET /calls] returns at most [limit] records, and an order-id filter
    that is not a valid ObjectId yields an empty list (not an error). *)
Theorem get_calls_edges (user : User) (f : CallFilters) (skip limit : nat) (w : World) :
  (List.length (get_calls user f skip limit w) <= limit)%nat
  /\ (forall s, cf_order_id f = Some s -> s <> "" -> ObjectId s = None ->
      get_calls user f skip limit w = []).
Proof.
  split.
  - unfold get_calls. destruct (order_id_filter f); simpl; [apply firstn_le_length|lia].
  - intros s E Hne Hs. unfold get_calls, order_id_filter. rewrite E.
    rewrite (proj2 (String.eqb_neq s "") Hne), Hs. reflexivity.
Qed.

Lemma get_calls_edges_witness :
  get_calls demo_user (mkCallFilters None None None (Some "abc")) 0 50 demo_world = [].
Proof.
  apply (proj2 (get_calls_edges demo_user (mkCallFilters None None None (Some "abc")) 0 50
                  demo_world) "abc"); [reflexivity|discriminate|reflexivity].
Defined.

Lemma length_insert_by_created c l : List.length (insert_by_created c l) = S (List.length l).
Proof.
  induction l as [|y l IH]; simpl; [reflexivity|].
  destruct (c_created_at y <=? c_created_at c); simpl; rewrite ?IH; reflexivity.
Qed.

Lemma length_sort_by_created_desc l : List.length (sort_by_created_desc l) = List.length l.
Proof.
  induction l as [|y l IH]; simpl; [reflexivity|]. rewrite length_insert_by_created, IH. reflexivity.
Qed.

Lemma insert_by_created_sorted c l :
  Sorted created_not_before l -> Sorted created_not_before (insert_by_created c l).
Proof.
  induction l as [|y l IH]; simpl; intros Hs; [repeat constructor|].
  destruct (Z.leb_spec (c_created_at y) (c_created_at c)) as [Hle|Hgt].
  - constructor; [exact Hs|]. constructor. exact Hle.
  - apply Sorted_inv in Hs as [Hs Hhd]. constructor; [apply IH, Hs|].
    destruct l as [|z l]; simpl; [constructor; unfold created_not_before; lia|].
    destruct (c_created_at z <=? c_created_at c); constructor;
      [unfold created_not_before; lia|]. inversion Hhd; assumption.
Qed.

Lemma sort_by_created_desc_sorted l : Sorted created_not_before (sort_by_created_desc l).
Proof.
  induction l as [|y l IH]; simpl; [constructor|]. apply insert_by_created_sorted, IH.
Qed.

Lemma Sorted_skipn {A} (R : A -> A -> Prop) n l : Sorted R l -> Sorted R (skipn n l).
Proof.
  revert l. induction n as [|n IH]; intros l Hs; [exact Hs|].
  destruct l as [|x l]; simpl; [constructor|]. apply IH. apply Sorted_inv in Hs as [Hs _]. exact Hs.
Qed.

Lemma Sorted_firstn {A} (R : A -> A -> Prop) n l : Sorted R l -> Sorted R (firstn n l).
Proof.
  revert l. induction n as [|n IH]; intros l Hs; [constructor|].
  destruct l as [|x l]; simpl; [constructor|]. apply Sorted_inv in Hs as [Hs Hhd].
  constructor; [apply IH, Hs|]. destruct n, l; simpl; try constructor. inversion Hhd; assumption.
Qed.

(** [GET /calls] lists records newest first: along the returned page the
    creation times never increase, whatever the filters, skip and limit. *)
Theorem get_calls_newest_first (user : User) (f : CallFilters) (skip limit : nat) (w : World) :
  Sorted created_not_before (get_calls user f skip limit w).
Proof.
  unfold get_calls. destruct (order_id_filter f); [|constructor].
  apply Sorted_firstn, Sorted_skipn, sort_by_created_desc_sorted.
Qed.

(** With no skip and a limit no smaller than the number of matching
    records, [GET /calls] returns every stored call that is visible to the
    requester and satisfies the filters. *)
Theorem get_calls_complete (user : User) (f : CallFilters) (ofl : option string)
    (limit : nat) (w : World) (c : CallDoc) :
  order_id_filter f = Some ofl ->
  (List.length (List.filter (call_matches user f ofl) (call_logs w)) <= limit)%nat ->
  In c (call_logs w) -> call_matches user f ofl c = true ->
  In c (get_calls user f 0 limit w).
Proof.
  intros Hof Hlen Hin Hm. unfold get_calls. rewrite Hof. cbn [skipn].
  change (skipn 0 ?l) with l.
  rewrite (firstn_all2 (n := limit)); [|rewrite length_sort_by_created_desc; exact Hlen].
  apply In_sort_by_created_desc, filter_In. auto.
Qed.

Lemma get_calls_complete_witness :
  In demo_call (get_calls demo_user (mkCallFilters (Some "in_progress") None None None) 0 50
                  demo_world).
Proof.
  apply (get_calls_complete demo_user (mkCallFilters (Some "in_progress") None None None) None
           50 demo_world demo_call); [reflexivity|simpl; lia|simpl; auto|reflexivity].
Defined.

(** ** [get_order_stats] *)

Lemma count_order_status_cons s o os :
  count_order_status s (o :: os)
  = (if String.eqb (confirmation_status o) s then 1 else 0) + count_order_status s os.
Proof. unfold count_order_status. simpl. destruct (String.eqb _ _); simpl; lia. Qed.

Lemma count_order_status_bounds s os :
  0 <= count_order_status s os <= Z.of_nat (List.length os).
Proof.
  induction os as [|o os IH]; [unfold count_order_status; simpl; lia|].
  rewrite count_order_status_cons. simpl List.length. destruct (String.eqb _ _); lia.
Qed.

Lemma count_four_statuses os :
  count_order_status "pending" os + count_order_status "confirmed" os
  + count_order_status "failed" os + count_order_status "cancelled" os
  <= Z.of_nat (List.length os).
Proof.
  induction os as [|o os IH]; [unfold count_order_status; simpl; lia|].
  rewrite !count_order_status_cons. simpl List.length.
  destruct (String.eqb_spec (confirmation_status o) "pending");
  destruct (String.eqb_spec (confirmation_status o) "confirmed");
  destruct (String.eqb_spec (confirmation_status o) "failed");
  destruct (String.eqb_spec (confirmation_status o) "cancelled");
  try (exfalso; congruence); lia.
Qed.

Lemma round_half_even_bounds (x : Q) (n : Z) :
  (0 <= x)%Q -> (x <= inject_Z n)%Q -> 0 <= round_half_even x <= n.
Proof.
  intros H0 Hn. unfold round_half_even.
  assert (Hf0 : 0 <= Qfloor x) by (rewrite <- (Qfloor_Z 0); apply Qfloor_resp_le; exact H0).
  assert (Hfn : Qfloor x <= n) by (rewrite <- (Qfloor_Z n); apply Qfloor_resp_le; exact Hn).
  assert (Hlt : (x - inject_Z (Qfloor x) > 1 # 2)%Q \/ (x - inject_Z (Qfloor x) == 1 # 2)%Q ->
                Qfloor x < n).
  { intros Hc. destruct (Z.eq_dec (Qfloor x) n) as [E|E]; [|lia].
    rewrite E in Hc. exfalso. destruct Hc; lra. }
  destruct (Qcompare _ _) eqn:Hc.
  - apply Qeq_alt in Hc. destruct (Z.even _); [lia|]. specialize (Hlt (or_intror Hc)). lia.
  - lia.
  - apply Qgt_alt in Hc. specialize (Hlt (or_introl Hc)). lia.
Qed.

Lemma round2_bounds (q : Q) : (0 <= q <= 100)%Q -> (0 <= round2 q <= 100)%Q.
Proof.
  intros [H0 H1]. unfold round2.
  destruct (round_half_even_bounds (q * 100) 10000) as [R0 R1];
    [lra|change (inject_Z 10000) with 10000%Q; lra|].
  rewrite Zle_Qle in R0, R1. change (inject_Z 0) with 0%Q in R0.
  change (inject_Z 10000) with 10000%Q in R1.
  split; [apply Qle_shift_div_l|apply Qle_shift_div_r]; lra.
Qed.

(** [GET /orders/stats] only reads; [total_orders] is the number of
    orders visible to the requester (all for an admin, their own
    otherwise); the pending, confirmed, failed and cancelled counts are
    non-negative and add up to at most the total; the confirmation rate is
    a percentage between 0 and 100; and with no visible order every
    statistic is 0. *)
Theorem order_stats_bounds (user : User) (w : World) :
  snd (get_order_stats user w) = w
  /\ total_orders (fst (get_order_stats user w))
     = Z.of_nat (List.length (visible_orders user (orders w)))
  /\ 0 <= pending_orders (fst (get_order_stats user w))
  /\ 0 <= confirmed_orders (fst (get_order_stats user w))
  /\ 0 <= failed_orders (fst (get_order_stats user w))
  /\ 0 <= cancelled_orders (fst (get_order_stats user w))
  /\ pending_orders (fst (get_order_stats user w)) + confirmed_orders (fst (get_order_stats user w))
     + failed_orders (fst (get_order_stats user w)) + cancelled_orders (fst (get_order_stats user w))
     <= total_orders (fst (get_order_stats user w))
  /\ (0 <= confirmation_rate (fst (get_order_stats user w)) <= 100)%Q
  /\ (visible_orders user (orders w) = [] -> fst (get_order_stats user w) = zero_order_stats).
Proof.
  unfold get_order_stats. destruct (visible_orders user (orders w)) as [|o os] eqn:Hv.
  { simpl. repeat split; try reflexivity; try lia; discriminate. }
  assert (Hpos : 0 < Z.of_nat (List.length (o :: os))) by (simpl; lia).
  rewrite (proj2 (Z.ltb_lt _ _) Hpos). simpl fst. simpl snd. cbn [total_orders pending_orders
    confirmed_orders failed_orders cancelled_orders confirmation_rate].
  pose proof (count_four_statuses (o :: os)).
  pose proof (count_order_status_bounds "pending" (o :: os)).
  pose proof (count_order_status_bounds "confirmed" (o :: os)) as [C0 C1].
  pose proof (count_order_status_bounds "failed" (o :: os)).
  pose proof (count_order_status_bounds "cancelled" (o :: os)).
  split; [reflexivity|]. split; [reflexivity|].
  simpl List.length in *. do 5 (split; [lia|]). split; [|discriminate].
  apply round2_bounds.
  rewrite Zle_Qle in C0, C1. rewrite Zlt_Qlt in Hpos. change (inject_Z 0) with 0%Q in C0, Hpos.
  generalize dependent (inject_Z (count_order_status "confirmed" (o :: os))). intros c C0 C1.
  generalize dependent (inject_Z (Z.of_nat (S (List.length os)))). intros t Hpos C1.
  assert (Hr0 : (0 <= c / t)%Q) by (apply Qle_shift_div_l; lra).
  assert (Hr1 : (c / t <= 1)%Q) by (apply Qle_shift_div_r; lra).
  generalize dependent (c / t)%Q. intros r Hr0 Hr1. lra.
Qed.

(** ** [update_call] *)

Lemma set_call_fields_c_user_id fs c : c_user_id (set_call_fields fs c) = c_user_id c.
Proof.
  apply (set_call_fields_keep c_user_id any_field); [|induction fs; simpl; auto].
  intros f [] _; case_call_field f; reflexivity.
Qed.

Lemma set_call_fields_c_created_at fs c : c_created_at (set_call_fields fs c) = c_created_at c.
Proof.
  apply (set_call_fields_keep c_created_at any_field); [|induction fs; simpl; auto].
  intros f [] _; case_call_field f; reflexivity.
Qed.

Lemma update_call_data_updated_at now cu c :
  c_updated_at (set_call_fields (update_call_data now cu) c) = now.
Proof.
  unfold update_call_data. rewrite !set_call_fields_app.
  destruct (status_is_completed cu); reflexivity.
Qed.

Lemma update_call_data_status now cu c s :
  cu_status cu = Some s -> status (set_call_fields (update_call_data now cu) c) = s.
Proof.
  destruct cu as [st [?|] [?|] [?|] [?|] [?|] [?|]]; simpl; intros ->;
    unfold update_call_data, status_is_completed; simpl;
    destruct (String.eqb s "completed"); reflexivity.
Qed.

Lemma length_update_one {A} (p : A -> bool) f l : List.length (update_one p f l) = List.length l.
Proof. induction l as [|x l IH]; simpl; [|destruct (p x); simpl; rewrite ?IH]; reflexivity. Qed.

Lemma In_update_one_other {A} (p : A -> bool) f l x :
  In x l -> p x = false -> In x (update_one p f l).
Proof.
  induction l as [|y l IH]; simpl; [tauto|]. intros [<-|H] Hx.
  - rewrite Hx. left. reflexivity.
  - destruct (p y); simpl; auto.
Qed.

(** [CallService.update_call]: when it returns [None] nothing is written;
    when it returns a record, that record is what a lookup of the same
    [_id] now finds in [call_logs]; it is the stored record with the same
    [_id], [call_id], order and owner, with [updated_at] set to now and
    [status] set to the requested one, if any; the number of call records,
    the orders and the dispatched calls are unchanged. *)
Theorem update_call_result (now : Z) (cid : string) (cu : CallUpdate) (w : World) :
  match update_call now cid cu w with
  | (None, w') => w' = w
  | (Some c', w') =>
      exists c oid,
        ObjectId cid = Some oid
        /\ find_one (fun c => String.eqb (c__id c) oid) (call_logs w) = Some c
        /\ find_one (fun c => String.eqb (c__id c) oid) (call_logs w') = Some c'
        /\ c__id c' = oid /\ call_id c' = call_id c /\ c_order_id c' = c_order_id c
        /\ c_user_id c' = c_user_id c /\ c_created_at c' = c_created_at c
        /\ c_updated_at c' = now
        /\ (forall s, cu_status cu = Some s -> status c' = s)
        /\ List.length (call_logs w') = List.length (call_logs w)
        /\ orders w' = orders w /\ dispatches w' = dispatches w
  end.
Proof.
  unfold update_call. destruct (ObjectId cid) as [oid|] eqn:Hoid; [|reflexivity].
  destruct (find_one _ _) as [c|] eqn:Hf; [|reflexivity].
  destruct (bool_decide _); [reflexivity|].
  exists c, oid. apply find_one_In in Hf as Hin. destruct Hin as [_ Hid].
  apply String.eqb_eq in Hid.
  split; [reflexivity|]. split; [exact Hf|]. split.
  { simpl. apply find_one_update_one; [exact Hf|]. rewrite set_call_fields_c__id, Hid.
    apply String.eqb_refl. }
  rewrite set_call_fields_c__id, set_call_fields_call_id, set_call_fields_c_order_id,
    set_call_fields_c_user_id, set_call_fields_c_created_at, update_call_data_updated_at.
  do 6 (split; [try exact Hid; reflexivity|]).
  split; [intros s; apply update_call_data_status|]. simpl.
  rewrite length_update_one. auto.
Qed.

(** ** The webhook: what a rejected event writes *)






(** An accepted delivery event rewrites only the matched call record and
    at most the order it links to: the numbers of call records and orders
    are unchanged, every other call record and every order with another
    [_id] is still stored as it was, and no call is dispatched. *)
Theorem webhook_success_frame (now : Z) (cid : string) (wd : dict) (w w' : World) :
  process_call_webhook now cid wd w = (true, w') ->
  exists call,
    find_one (fun c => String.eqb (call_id c) cid) (call_logs w) = Some call
    /\ List.length (call_logs w') = List.length (call_logs w)
    /\ (forall c, In c (call_logs w) -> call_id c <> cid -> In c (call_logs w'))
    /\ List.length (orders w') = List.length (orders w)
    /\ (forall o, In o (orders w) -> o__id o <> c_order_id call -> In o (orders w'))
    /\ dispatches w' = dispatches w.
Proof.
  unfold process_call_webhook. destruct (find_one _ _) as [call|] eqn:Hf; [|congruence].
  destruct (webhook_outcome _ _) as [out|]; [|congruence].
  destruct (py_int _) as [d|]; [|congruence]. intros [= <-].
  exists call. split; [reflexivity|].
  destruct (String.eqb out "completed"); simpl; rewrite !length_update_one.
  all: repeat split; try reflexivity.
  all: intros x Hx Hne; first [exact Hx|apply In_update_one_other; [exact Hx|apply String.eqb_neq, Hne]].
Qed.

Lemma webhook_success_frame_witness :
  exists w',
    process_call_webhook 20 (call_id demo_call) (demo_event "completed" "15") demo_world
      = (true, w')
    /\ exists call,
       find_one (fun c => String.eqb (call_id c) (call_id demo_call)) (call_logs demo_world)
         = Some call
       /\ List.length (call_logs w') = List.length (call_logs demo_world)
       /\ (forall c, In c (call_logs demo_world) -> call_id c <> call_id demo_call ->
                     In c (call_logs w'))
       /\ List.length (orders w') = List.length (orders demo_world)
       /\ (forall o, In o (orders demo_world) -> o__id o <> c_order_id call -> In o (orders w'))
       /\ dispatches w' = dispatches demo_world.
Proof.
  eexists. split; [vm_compute; reflexivity|].
  apply (webhook_success_frame 20 (call_id demo_call) (demo_event "completed" "15")).
  vm_compute. reflexivity.
Defined.

(** ** Script localisation and audio *)

Lemma substring_0_length (s : string) : substring 0 (String.length s) s = s.
Proof. induction s as [|b s IH]; simpl; [reflexivity|]. rewrite IH. reflexivity. Qed.

Lemma prefix_substring (p s : string) :
  String.prefix p s = true ->
  (p ++ substring (String.length p) (String.length s - String.length p) s)%string = s.
Proof.
  revert s. induction p as [|a p IH]; intros s.
  - intros _. simpl. rewrite Nat.sub_0_r. apply substring_0_length.
  - destruct s as [|b s]; simpl; [discriminate|].
    destruct (ascii_dec a b) as [<-|]; [|discriminate]. intros H.
    change (String a (p ++ substring (String.length p) (String.length s - String.length p) s)%string
            = String a s). f_equal. exact (IH s H).
Qed.


Lemma prefix_app (p r : string) : String.prefix p (p ++ r) = true.
Proof.
  induction p as [|a p IH]; [destruct r; reflexivity|].
  change ((if ascii_dec a a then String.prefix p (p ++ r) else false) = true).
  destruct (ascii_dec a a); [exact IH|contradiction].
Qed.

Lemma substring_app (p r : string) :
  substring (String.length p) (String.length (p ++ r) - String.length p) (p ++ r) = r.
Proof.
  induction p as [|a p IH]; [simpl; rewrite Nat.sub_0_r; apply substring_0_length|].
  exact IH.
Qed.

Lemma localize_script_app_Hello (rest language : string) :
  localize_script ("Hello" ++ rest) language = (language_greeting language ++ rest)%string.
Proof.
  unfold localize_script. rewrite prefix_app. f_equal. apply (substring_app "Hello" rest).
Qed.

(** [localize_script] keeps a script unchanged when the language's
    greeting is "Hello": for "en" and for every language code outside the
    greeting table. *)
Theorem localize_script_hello (script language : string) :
  language_greeting language = "Hello" -> localize_script script language = script.
Proof.
  intros Hg. unfold localize_script. rewrite Hg.
  destruct (String.prefix "Hello" script) eqn:Hp; [|reflexivity].
  exact (prefix_substring "Hello" script Hp).
Qed.

Lemma localize_script_hello_witness :
  localize_script "Hello Ada" "nl" = "Hello Ada".
Proof. apply localize_script_hello. reflexivity. Defined.

(** The generated confirmation script opens with "Hello " and the
    customer name; localising it replaces exactly that first word by the
    language's greeting and keeps the rest of the text. *)
Theorem localized_script_greeting (customer_name order_id order_total currency : string)
    (its : list (string * Z)) (language : string) :
  exists rest,
    generate_confirmation_script customer_name order_id order_total currency its language
      = ("Hello " ++ customer_name ++ rest)%string
    /\ localize_script
         (generate_confirmation_script customer_name order_id order_total currency its language)
         language
       = (language_greeting language ++ " " ++ customer_name ++ rest)%string.
Proof.
  eexists. split; [unfold generate_confirmation_script; reflexivity|].
  unfold generate_confirmation_script at 1.
  match goal with |- localize_script ("Hello " ++ ?r)%string _ = _ =>
    change ("Hello " ++ r)%string with ("Hello" ++ (" " ++ r))%string end.
  apply localize_script_app_Hello.
Qed.

(** Without an ElevenLabs API key no confirmation call can be placed:
    [initiate_order_confirmation_call] always answers with an error,
    dispatches no call and leaves every order (and its [call_attempts])
    unchanged. *)
Theorem initiate_without_voice_key (env : Env) (order_id : string) (user : User)
    (language : string) (voice_id : option string) (w : World) :
  el_api_key (voice_provider env) = false ->
  (exists code detail,
      fst (initiate_order_confirmation_call env order_id user language voice_id w)
      = Err code detail)
  /\ orders (snd (initiate_order_confirmation_call env order_id user language voice_id w))
     = orders w
  /\ dispatches (snd (initiate_order_confirmation_call env order_id user language voice_id w))
     = dispatches w.
Proof.
  intros Hk. unfold initiate_order_confirmation_call.
  destruct (eligibility order_id user w) as [o|code detail]; [|simpl; eauto].
  destruct (create_call env _ _ _ _ w) as [cr w1] eqn:Hc.
  unfold create_conversation_audio, text_to_speech. rewrite Hk. simpl audio_ok.
  cbv iota beta.
  match goal with |- context [update_call ?n ?i ?u w1] =>
    pose proof (update_call_orders n i u w1) as [Ho Hd]; destruct (update_call n i u w1) as [r w2]
  end.
  simpl in Ho, Hd |- *. unfold create_call in Hc. injection Hc as _ <-. simpl in Ho, Hd.
  rewrite Ho, Hd. unfold err_audio_failed. eauto.
Qed.

Lemma initiate_without_voice_key_witness :
  (exists code detail,
      fst (initiate_order_confirmation_call
             (mkEnv 10 "7c9e6679-7425-40de-944b-e07fc1f90ae7" "65a1b2c3d4e5f60718293a4d"
                (mkVoiceProvider false (fun _ _ => Some "RIFF")) (mkTelephony true None))
             "65a1b2c3d4e5f60718293a4b" demo_user "en" None demo_world)
      = Err code detail)
  /\ orders (snd (initiate_order_confirmation_call
                    (mkEnv 10 "7c9e6679-7425-40de-944b-e07fc1f90ae7" "65a1b2c3d4e5f60718293a4d"
                       (mkVoiceProvider false (fun _ _ => Some "RIFF")) (mkTelephony true None))
                    "65a1b2c3d4e5f60718293a4b" demo_user "en" None demo_world))
     = orders demo_world
  /\ dispatches (snd (initiate_order_confirmation_call
                        (mkEnv 10 "7c9e6679-7425-40de-944b-e07fc1f90ae7" "65a1b2c3d4e5f60718293a4d"
                           (mkVoiceProvider false (fun _ _ => Some "RIFF")) (mkTelephony true None))
                        "65a1b2c3d4e5f60718293a4b" demo_user "en" None demo_world))
     = dispatches demo_world.
Proof. apply initiate_without_voice_key. reflexivity. Defined.

(** ** Call records and dispatches across all operations *)

Lemma map_call_ident_update p fs l :
  map call_ident (update_one p (set_call_fields fs) l) = map call_ident l.
Proof.
  apply map_update_one. intros x. unfold call_ident.
  rewrite set_call_fields_c__id, set_call_fields_call_id, set_call_fields_c_order_id,
    set_call_fields_c_user_id. reflexivity.
Qed.

Lemma update_call_idents now cid cu w :
  map call_ident (call_logs (snd (update_call now cid cu w))) = map call_ident (call_logs w).
Proof.
  unfold update_call. destruct (ObjectId cid); [|reflexivity].
  destruct (find_one _ _); [|reflexivity]. destruct (bool_decide _); [reflexivity|].
  apply map_call_ident_update.
Qed.

Lemma twilio_webhook_calls now form w :
  map call_ident (call_logs (snd (twilio_webhook now form w))) = map call_ident (call_logs w)
  /\ dispatches (snd (twilio_webhook now form w)) = dispatches w.
Proof.
  unfold twilio_webhook.
  destruct (dict_get form "CallSid" VNone) as [| | |sid]; try (split; reflexivity).
  destruct (String.eqb sid ""); [split; reflexivity|].
  destruct (process_call_webhook now sid form w) as [ok w'] eqn:E.
  assert (H : map call_ident (call_logs w') = map call_ident (call_logs w)
              /\ dispatches w' = dispatches w).
  { unfold process_call_webhook in E.
    destruct (find_one _ _) as [call|]; [|injection E as _ <-; split; reflexivity].
    destruct (webhook_outcome _ _) as [out|]; [|injection E as _ <-; split; reflexivity].
    destruct (py_int _) as [d|]; [|injection E as _ <-; split; reflexivity].
    injection E as _ <-.
    destruct (String.eqb out "completed"); simpl; rewrite map_call_ident_update; split; reflexivity. }
  destruct ok; exact H.
Qed.

Lemma order_ops_calls op w :
  match op with
  | OpCreateOrder _ _ _ _ | OpBulkImport _ _ _ _ | OpUpdateOrder _ _ _ _ | OpDeleteOrder _ _
  | OpCallStats _ =>
      call_logs (step op w) = call_logs w /\ dispatches (step op w) = dispatches w
  | _ => True
  end.
Proof.
  destruct op as [| |now oid user oc|now fresh user ocs|now oid ou user|oid user|user];
    cbn [step]; try exact I.
  - destruct (create_order now oid user oc w) as [r w1] eqn:E.
    destruct (create_order_shape _ _ _ _ _ _ _ E) as [(o & _ & -> & _)|(c & d & _ & ->)];
      split; reflexivity.
  - pose proof (bulk_import_shape now fresh 0 user ocs w) as H. unfold bulk_import_orders.
    destruct (bulk_import_orders_from now fresh 0 user ocs w) as [[s f] w'].
    destruct H as (_ & added & _ & _ & Hc & Hd & _). split; assumption.
  - unfold update_order. destruct (ObjectId oid); [|split; reflexivity].
    destruct (find_one _ _); split; reflexivity.
  - unfold delete_order. destruct (ObjectId oid); [|split; reflexivity].
    destruct (find_one _ _); split; reflexivity.
  - rewrite get_call_stats_world. split; reflexivity.
Qed.

Lemma eligibility_ok order_id user w o :
  eligibility order_id user w = Ok o ->
  In o (orders w) /\ ObjectId order_id = Some (o__id o) /\ o_user_id o = user_id user
  /\ confirmation_status o <> "confirmed" /\ call_attempts o < max_call_attempts o.
Proof.
  unfold eligibility. destruct (ObjectId order_id) as [oid|]; [|discriminate].
  destruct (find_one _ _) as [x|] eqn:Hf; [|discriminate].
  apply find_one_In in Hf as [Hin Hq]. apply andb_prop in Hq as [H1 H2].
  apply String.eqb_eq in H1, H2.
  destruct (String.eqb_spec (confirmation_status x) "confirmed"); [discriminate|].
  destruct (Z.leb_spec (max_call_attempts x) (call_attempts x)); [discriminate|].
  intros [= <-]. subst oid. auto.
Qed.

Lemma audio_ok_key vp script voice language a :
  audio_ok (create_conversation_audio vp script voice language) = Some a -> el_api_key vp = true.
Proof.
  unfold create_conversation_audio, text_to_speech. destruct (el_api_key vp); [reflexivity|].
  discriminate.
Qed.

(** No operation ever deletes a call record or changes what identifies
    it (its [_id], [call_id], order and owner); deleting an order leaves
    its call records in place. The only operation that adds a record is
    an initiate request, and it adds at most one. *)
Theorem step_call_records_append (op : Op) (w : World) :
  exists extra,
    map call_ident (call_logs (step op w)) = (map call_ident (call_logs w) ++ extra)%list
    /\ (List.length extra <= 1)%nat
    /\ (extra <> [] -> is_initiate op = true).
Proof.
  pose proof (order_ops_calls op w) as Hord.
  destruct op as [env oid user lang v|now form| | | | |]; cbn [is_initiate];
    try (rewrite (proj1 Hord); exists []; rewrite app_nil_r; split; [reflexivity|];
         split; [simpl; lia|]; intros []; reflexivity).
  - cbn [step]. unfold initiate_order_confirmation_call.
    destruct (eligibility oid user w) as [o|code d];
      [|exists []; rewrite app_nil_r; split; [reflexivity|]; simpl; split; [lia|auto]].
    destruct (create_call _ _ _ _ _ _) as [cr w1] eqn:Ec.
    destruct (create_call_spec _ _ _ _ _ _ _ _ Ec) as (-> & _).
    exists [call_ident cr]. split; [|simpl; split; [lia|auto]].
    destruct (audio_ok _) as [audio|].
    + match goal with |- context [update_call ?t ?i ?u ?w2] =>
        pose proof (update_call_idents t i u w2) as Hi; destruct (update_call t i u w2) as [u3 w3] end.
      simpl in Hi |- *. rewrite Hi, map_app. reflexivity.
    + match goal with |- context [update_call ?t ?i ?u ?w2] =>
        pose proof (update_call_idents t i u w2) as Hi; destruct (update_call t i u w2) as [u3 w3] end.
      simpl in Hi |- *. rewrite Hi, map_app. reflexivity.
  - cbn [step]. exists []. rewrite app_nil_r, (proj1 (twilio_webhook_calls now form w)).
    split; [reflexivity|]. simpl. split; [lia|]. intros []; reflexivity.
Qed.

(** A call is dispatched (the telephony service is asked to ring a
    number) only by an initiate request, at most one per request, to the
    phone number of an order that the requester owns, that is not
    confirmed and that has call attempts left, only when an ElevenLabs key
    is configured, and with the new record's [call_id]. *)
Theorem step_dispatch_only_eligible (op : Op) (w : World) :
  exists extra,
    dispatches (step op w) = (dispatches w ++ extra)%list
    /\ (List.length extra <= 1)%nat
    /\ forall ph cid, In (ph, cid) extra ->
       exists env order_id user lang v o,
         op = OpInitiate env order_id user lang v
         /\ In o (orders w) /\ ObjectId order_id = Some (o__id o) /\ o_user_id o = user_id user
         /\ confirmation_status o <> "confirmed" /\ call_attempts o < max_call_attempts o
         /\ el_api_key (voice_provider env) = true
         /\ ph = customer_phone o /\ cid = new_uuid env.
Proof.
  pose proof (order_ops_calls op w) as Hord.
  destruct op as [env oid user lang v|now form| | | | |];
    try (rewrite (proj2 Hord); exists []; rewrite app_nil_r; split; [reflexivity|];
         split; [simpl; lia|]; intros ? ? []).
  - cbn [step]. unfold initiate_order_confirmation_call.
    destruct (eligibility oid user w) as [o|code d] eqn:He;
      [|exists []; rewrite app_nil_r; split; [reflexivity|]; simpl; split; [lia|intros ? ? []]].
    destruct (create_call _ _ _ _ _ _) as [cr w1] eqn:Ec.
    destruct (create_call_spec _ _ _ _ _ _ _ _ Ec) as (-> & _ & Huuid & _).
    destruct (audio_ok _) as [audio|] eqn:Ha.
    + exists [(customer_phone o, new_uuid env)].
      match goal with |- context [update_call ?t ?i ?u ?w2] =>
        pose proof (proj2 (update_call_orders t i u w2)) as Hd;
        destruct (update_call t i u w2) as [u3 w3] end.
      simpl in Hd |- *. rewrite Hd, Huuid. split; [reflexivity|]. split; [lia|].
      intros ph cid [[= <- <-]|[]].
      destruct (eligibility_ok _ _ _ _ He) as (Hin & Hid & Hown & Hnc & Hatt).
      exists env, oid, user, lang, v, o. repeat split; auto.
      exact (audio_ok_key _ _ _ _ _ Ha).
    + exists []. rewrite app_nil_r.
      match goal with |- context [update_call ?t ?i ?u ?w2] =>
        pose proof (proj2 (update_call_orders t i u w2)) as Hd;
        destruct (update_call t i u w2) as [u3 w3] end.
      simpl in Hd |- *. rewrite Hd. split; [reflexivity|]. split; [lia|intros ? ? []].
  - cbn [step]. exists []. rewrite app_nil_r, (proj2 (twilio_webhook_calls now form w)).
    split; [reflexivity|]. split; [simpl; lia|intros ? ? []].
Qed.

(** ** Order creation and the simulated telephony call *)




